(** * inject.scopes: binding scopes of the injector

    A shallow embedding of [src/inject/scopes.py] and the verification of
    its behaviour: the [AbstractScope] binding and factory protocol, and the
    three concrete scopes ([ApplicationScope], [ThreadScope],
    [RequestScope]) with their binding stores.

    Conventions of the embedding.
    - A method is a function in a state-and-exception monad over the scope
      object; the calling thread is an explicit first argument.  A raised
      exception keeps the mutations done before it, as in Python.
    - [threading.local] storage is a finite map from thread identifiers to
      the attributes of that thread; a thread that never touched the object
      sees what [__init__] sets up.
    - A callable is a function from the number of invocations the scope has
      performed so far to the outcome of calling it without arguments: the
      object it returns or the exception it raises.  So a factory may hand
      out a different object at every call, and it may raise any exception,
      those of the scope included; a callable that does not accept a call
      without arguments raises [TypeError] there.  Factories do not
      re-enter the scope that invokes them.
    - The scope carries two observation traces: the records sent to its
      logger and the callables it has invoked. *)

From stdpp Require Import gmap strings.

(** ** Python objects, exceptions, results *)

(** A type-key: the class (or token) a binding is registered under. *)
Abbreviation Key := string.

(** The identity of the calling thread. *)
Abbreviation Tid := nat.

Inductive Obj : Type :=
| PyNone
| PyInt (z : Z)
| PyStr (s : string)
| PyInstance (cls : string) (id : nat)
| PyCallable (body : nat -> Outcome)
with Outcome : Type :=
| Returns (v : Obj)
| Throws (e : Exc)
with Exc : Type :=
| FactoryNotCallable (factory : Obj)
| NoRequestError
| KeyError (key : Key)
| TypeError
| Raised (name : string).

(** Python's [callable(o)]: it tells that [o] has a [__call__], not that
    the call without arguments succeeds. *)
Definition callable (o : Obj) : bool :=
  match o with
  | PyCallable _ => true
  | _ => false
  end.

Inductive Result (A : Type) : Type :=
| Ok (a : A)
| Err (e : Exc).
Arguments Ok {A} a.
Arguments Err {A} e.

(** The records a scope sends to [self.logger.info]. *)
Inductive LogRecord : Type :=
| Overriding (type : Key)
| Bound (type : Key) (to : Obj)
| Unbound (type : Key)
| UnboundFactory (type : Key).

Abbreviation dict := (gmap Key Obj).

(** ** Binding stores *)

(** The attributes one thread sees on a [threading.local] object:
    [_data], and whatever a subclass adds. *)
Record Local (X : Type) : Type := MkLocal {
  _data : dict;
  attrs : X
}.
Arguments MkLocal {X} _ _.
Arguments _data {X} _.
Arguments attrs {X} _.

Module ThreadLocalBindings.
Section Methods.
Context {X : Type}.
(** What [__init__] leaves in a thread on its first access. *)
Variable init : Local X.

Definition this (b : gmap Tid (Local X)) (t : Tid) : Local X :=
  default init (b !! t).

Definition set_data (b : gmap Tid (Local X)) (t : Tid) (d : dict)
  : gmap Tid (Local X) :=
  <[t := MkLocal d (attrs (this b t))]> b.

Definition set_attrs (b : gmap Tid (Local X)) (t : Tid) (x : X)
  : gmap Tid (Local X) :=
  <[t := MkLocal (_data (this b t)) x]> b.

Definition __getitem__ (b : gmap Tid (Local X)) (t : Tid) (key : Key)
  : Result Obj :=
  match _data (this b t) !! key with
  | Some v => Ok v
  | None => Err (KeyError key)
  end.

Definition __setitem__ (b : gmap Tid (Local X)) (t : Tid) (key : Key)
    (value : Obj) : gmap Tid (Local X) :=
  set_data b t (<[key := value]> (_data (this b t))).

Definition __delitem__ (b : gmap Tid (Local X)) (t : Tid) (key : Key)
  : Result (gmap Tid (Local X)) :=
  match _data (this b t) !! key with
  | Some _ => Ok (set_data b t (delete key (_data (this b t))))
  | None => Err (KeyError key)
  end.

Definition __contains__ (b : gmap Tid (Local X)) (t : Tid) (key : Key)
  : bool :=
  bool_decide (is_Some (_data (this b t) !! key)).

Definition get (b : gmap Tid (Local X)) (t : Tid) (key : Key) : Obj :=
  default PyNone (_data (this b t) !! key).

Definition __len__ (b : gmap Tid (Local X)) (t : Tid) : nat :=
  size (_data (this b t)).

Definition clear (b : gmap Tid (Local X)) (t : Tid) : gmap Tid (Local X) :=
  set_data b t ∅.
End Methods.

Definition __init__ : Local unit := MkLocal ∅ ().
End ThreadLocalBindings.

Module RequestLocalBindings.
(** [super().__init__()], then [self.request_started = False]. *)
Definition __init__ : Local bool := MkLocal ∅ false.

Definition request_started (b : gmap Tid (Local bool)) (t : Tid) : bool :=
  attrs (ThreadLocalBindings.this __init__ b t).

Definition start_request (b : gmap Tid (Local bool)) (t : Tid)
  : gmap Tid (Local bool) :=
  ThreadLocalBindings.set_attrs __init__ b t true.

Definition end_request (b : gmap Tid (Local bool)) (t : Tid)
  : gmap Tid (Local bool) :=
  ThreadLocalBindings.set_attrs __init__
    (ThreadLocalBindings.clear __init__ b t) t false.
End RequestLocalBindings.

(** ** Scope objects *)

Inductive ScopeClass : Type :=
| ApplicationScope
| ThreadScope
| RequestScope.

(** The object each class stores in [self._bindings]. *)
Definition Bindings (c : ScopeClass) : Type :=
  match c with
  | ApplicationScope => dict
  | ThreadScope => gmap Tid (Local unit)
  | RequestScope => gmap Tid (Local bool)
  end.

Record Scope (c : ScopeClass) : Type := MkScope {
  _factories : dict;
  _bindings : Bindings c;
  logged : list LogRecord;
  invoked : list Obj
}.
Arguments MkScope {c} _ _ _ _.
Arguments _factories {c} _.
Arguments _bindings {c} _.
Arguments logged {c} _.
Arguments invoked {c} _.

(** The base dict interface of [_bindings], resolved on the class of the
  store; the calling thread only matters for thread-local stores. *)
Module Store.
Definition contains {c} : Bindings c -> Tid -> Key -> bool :=
  match c with
  | ApplicationScope => fun d _ key => bool_decide (is_Some (d !! key))
  | ThreadScope =>
      ThreadLocalBindings.__contains__ ThreadLocalBindings.__init__
  | RequestScope =>
      ThreadLocalBindings.__contains__ RequestLocalBindings.__init__
  end.

Definition get {c} : Bindings c -> Tid -> Key -> Obj :=
  match c with
  | ApplicationScope => fun d _ key => default PyNone (d !! key)
  | ThreadScope => ThreadLocalBindings.get ThreadLocalBindings.__init__
  | RequestScope => ThreadLocalBindings.get RequestLocalBindings.__init__
  end.

Definition setitem {c} : Bindings c -> Tid -> Key -> Obj -> Bindings c :=
  match c with
  | ApplicationScope => fun d _ key value => <[key := value]> d
  | ThreadScope =>
      ThreadLocalBindings.__setitem__ ThreadLocalBindings.__init__
  | RequestScope =>
      ThreadLocalBindings.__setitem__ RequestLocalBindings.__init__
  end.

Definition delitem {c} : Bindings c -> Tid -> Key -> Result (Bindings c) :=
  match c with
  | ApplicationScope => fun d _ key =>
      match d !! key with
      | Some _ => Ok (delete key d)
      | None => Err (KeyError key)
      end
  | ThreadScope =>
      ThreadLocalBindings.__delitem__ ThreadLocalBindings.__init__
  | RequestScope =>
      ThreadLocalBindings.__delitem__ RequestLocalBindings.__init__
  end.

(** The mapping the calling thread reads and writes through the store. *)
Definition view {c} : Bindings c -> Tid -> dict :=
  match c with
  | ApplicationScope => fun d _ => d
  | ThreadScope => fun b t =>
      _data (ThreadLocalBindings.this ThreadLocalBindings.__init__ b t)
  | RequestScope => fun b t =>
      _data (ThreadLocalBindings.this RequestLocalBindings.__init__ b t)
  end.

(** The request-active flag of the calling thread where the store has one;
  a store without the flag never refuses an access. *)
Definition started {c} : Bindings c -> Tid -> bool :=
  match c with
  | RequestScope => RequestLocalBindings.request_started
  | _ => fun _ _ => true
  end.
End Store.

(** ** Methods: state and exceptions *)

Definition Method (c : ScopeClass) (A : Type) : Type :=
  Scope c -> Result A * Scope c.

#[export] Instance Method_ret {c} : MRet (Method c) :=
  fun A a s => (Ok a, s).

#[export] Instance Method_bind {c} : MBind (Method c) :=
  fun A B k m s =>
    match m s with
    | (Ok a, s') => k a s'
    | (Err e, s') => (Err e, s')
    end.

(** Nothing happens and the method goes on (or returns [None]). *)
Definition pass {c} : Method c unit :=
  mret ().

Definition raise {c A} (e : Exc) : Method c A :=
  fun s => (Err e, s).

Definition lift {c A} (r : Result A) : Method c A :=
  fun s => (r, s).

Definition gets {c A} (f : Scope c -> A) : Method c A :=
  fun s => (Ok (f s), s).

Definition set_bindings {c} (b : Bindings c) : Method c unit :=
  fun s => (Ok (), MkScope (_factories s) b (logged s) (invoked s)).

Definition set_factories {c} (fs : dict) : Method c unit :=
  fun s => (Ok (), MkScope fs (_bindings s) (logged s) (invoked s)).

(** [self.logger.info(...)]. *)
Definition info {c} (r : LogRecord) : Method c unit :=
  fun s =>
    (Ok (), MkScope (_factories s) (_bindings s) (logged s ++ [r]) (invoked s)).

(** [f()]: the call is recorded, and the callable sees how many calls
    came before it.  What the callable raises propagates as it is;
    calling an object that is not callable raises [TypeError]. *)
Definition invoke {c} (f : Obj) : Method c Obj :=
  fun s =>
    match f with
    | PyCallable body =>
        let s' :=
          MkScope (_factories s) (_bindings s) (logged s) (invoked s ++ [f]) in
        match body (length (invoked s)) with
        | Returns v => (Ok v, s')
        | Throws e => (Err e, s')
        end
    | _ => (Err TypeError, s)
    end.

(** ** AbstractScope *)

Module AbstractScope.
Section Methods.
Context {c : ScopeClass}.
(** [self.unbind] and [self.bind] as the class of the instance resolves
    them. *)
Variable self_unbind : Tid -> Key -> Method c unit.
Variable self_bind : Tid -> Key -> Obj -> Method c unit.

Definition is_bound (t : Tid) (type : Key) : Method c bool :=
  b ← gets _bindings;
  mret (Store.contains b t type).

Definition __contains__ (t : Tid) (type : Key) : Method c bool :=
  is_bound t type.

Definition unbind (t : Tid) (type : Key) : Method c unit :=
  b ← gets _bindings;
  if Store.contains b t type then
    b' ← lift (Store.delitem b t type);
    set_bindings b';;
    info (Unbound type)
  else pass.

Definition bind (t : Tid) (type : Key) (to : Obj) : Method c unit :=
  bound ← is_bound t type;
  (if (bound : bool) then info (Overriding type);; self_unbind t type else pass);;
  b ← gets _bindings;
  set_bindings (Store.setitem b t type to);;
  info (Bound type to).

Definition unbind_factory (t : Tid) (type : Key) : Method c unit :=
  fs ← gets _factories;
  if bool_decide (is_Some (fs !! type)) then
    set_factories (delete type fs);;
    info (UnboundFactory type)
  else pass.

Definition bind_factory (t : Tid) (type : Key) (factory : Obj)
  : Method c unit :=
  (if negb (callable factory) then raise (FactoryNotCallable factory)
   else pass);;
  unbind_factory t type;;
  fs ← gets _factories;
  set_factories (<[type := factory]> fs).

Definition is_factory_bound (t : Tid) (type : Key) : Method c bool :=
  fs ← gets _factories;
  mret (bool_decide (is_Some (fs !! type))).

Definition get (t : Tid) (type : Key) : Method c Obj :=
  b ← gets _bindings;
  if Store.contains b t type then mret (Store.get b t type)
  else
    fs ← gets _factories;
    if bool_decide (is_Some (fs !! type)) then
      factory ← lift (match fs !! type with
                      | Some f => Ok f
                      | None => Err (KeyError type)
                      end);
      inst ← invoke factory;
      self_bind t type inst;;
      mret inst
    else mret PyNone.
End Methods.
End AbstractScope.

(** ** ApplicationScope *)

Module ApplicationScope.
Definition unbind : Tid -> Key -> Method ApplicationScope unit :=
  AbstractScope.unbind.

Definition bind : Tid -> Key -> Obj -> Method ApplicationScope unit :=
  AbstractScope.bind unbind.

Definition get : Tid -> Key -> Method ApplicationScope Obj :=
  AbstractScope.get bind.

(** The constructor run by thread [t] on the instance [self]: empty
    factories and bindings, then [self.bind(ApplicationScope, self)]. *)
Definition __init__ (t : Tid) (self : Obj)
  : Result unit * Scope ApplicationScope :=
  bind t "ApplicationScope" self (MkScope (c := ApplicationScope) ∅ ∅ [] []).
End ApplicationScope.

(** ** ThreadScope *)

Module ThreadScope.
Definition unbind : Tid -> Key -> Method ThreadScope unit :=
  AbstractScope.unbind.

Definition bind : Tid -> Key -> Obj -> Method ThreadScope unit :=
  AbstractScope.bind unbind.

Definition get : Tid -> Key -> Method ThreadScope Obj :=
  AbstractScope.get bind.

Definition __init__ : Scope ThreadScope :=
  MkScope (c := ThreadScope) ∅ ∅ [] [].
End ThreadScope.

(** ** RequestScope *)

Module RequestScope.
Definition __init__ : Scope RequestScope :=
  MkScope (c := RequestScope) ∅ ∅ [] [].

Definition start (t : Tid) : Method RequestScope unit :=
  b ← gets (c := RequestScope) _bindings;
  set_bindings (c := RequestScope) (RequestLocalBindings.start_request b t).

Definition end_ (t : Tid) : Method RequestScope unit :=
  b ← gets (c := RequestScope) _bindings;
  set_bindings (c := RequestScope) (RequestLocalBindings.end_request b t).

Definition _request_required (t : Tid) : Method RequestScope unit :=
  b ← gets (c := RequestScope) _bindings;
  if RequestLocalBindings.request_started b t then pass
  else raise NoRequestError.

Definition unbind (t : Tid) (type : Key) : Method RequestScope unit :=
  _request_required t;;
  AbstractScope.unbind t type.

Definition bind (t : Tid) (type : Key) (to : Obj)
  : Method RequestScope unit :=
  _request_required t;;
  AbstractScope.bind unbind t type to.

Definition get (t : Tid) (type : Key) : Method RequestScope Obj :=
  _request_required t;;
  AbstractScope.get bind t type.

(** [__enter__] starts the request and hands back the scope the caller
    already holds; [__exit__] ends it and returns [False], so an
    exception of the body is not suppressed. *)
Definition __enter__ (t : Tid) : Method RequestScope unit :=
  start t.

Definition __exit__ (t : Tid) : Method RequestScope bool :=
  end_ t;;
  mret false.
End RequestScope.

(** ** Method resolution on the class of the instance *)

Module Self.
Definition bind {c} : Tid -> Key -> Obj -> Method c unit :=
  match c with
  | ApplicationScope => ApplicationScope.bind
  | ThreadScope => ThreadScope.bind
  | RequestScope => RequestScope.bind
  end.

Definition unbind {c} : Tid -> Key -> Method c unit :=
  match c with
  | ApplicationScope => ApplicationScope.unbind
  | ThreadScope => ThreadScope.unbind
  | RequestScope => RequestScope.unbind
  end.

Definition get {c} : Tid -> Key -> Method c Obj :=
  match c with
  | ApplicationScope => ApplicationScope.get
  | ThreadScope => ThreadScope.get
  | RequestScope => RequestScope.get
  end.

(** Inherited by every class without override. *)
Definition is_bound {c} : Tid -> Key -> Method c bool :=
  AbstractScope.is_bound.

Definition bind_factory {c} : Tid -> Key -> Obj -> Method c unit :=
  AbstractScope.bind_factory.

Definition unbind_factory {c} : Tid -> Key -> Method c unit :=
  AbstractScope.unbind_factory.

Definition is_factory_bound {c} : Tid -> Key -> Method c bool :=
  AbstractScope.is_factory_bound.
End Self.

(** Whether the guard of the accessors lets thread [t] through: a
    [RequestScope] needs a started request, the other scopes have no
    guard. *)
Definition accepts {c} (s : Scope c) (t : Tid) : bool :=
  Store.started (_bindings s) t.

(** The direct bindings thread [t] sees in scope [s]. *)
Definition bindings_of {c} (s : Scope c) (t : Tid) : dict :=
  Store.view (_bindings s) t.

(** ** Sample scopes *)

(** [lambda: []]: every call hands out a new list. *)
Definition list_factory : Obj :=
  PyCallable (fun n => Returns (PyInstance "list" n)).

(** A [ThreadScope] after [bind_factory(list, lambda: [])]. *)
Definition thread_scope_with_factory : Scope ThreadScope :=
  snd (Self.bind_factory 0 "list" list_factory ThreadScope.__init__).

(** A [RequestScope] after [bind_factory(list, lambda: [])], no request
    started. *)
Definition idle_request_scope : Scope RequestScope :=
  snd (Self.bind_factory 0 "list" list_factory RequestScope.__init__).

(** The same scope inside a request of thread 0 that bound [str]. *)
Definition busy_request_scope : Scope RequestScope :=
  snd (RequestScope.bind 0 "str" (PyStr "x")
         (snd (RequestScope.start 0 idle_request_scope))).

(** The same request after [get(list)] has resolved the factory once. *)
Definition served_request_scope : Scope RequestScope :=
  snd (RequestScope.get 0 "list" busy_request_scope).

(** ** Histories of calls *)

(** One call of a public method. *)
Inductive Call : Type :=
| Call_bind (type : Key) (to : Obj)
| Call_unbind (type : Key)
| Call_is_bound (type : Key)
| Call_bind_factory (type : Key) (factory : Obj)
| Call_unbind_factory (type : Key)
| Call_is_factory_bound (type : Key)
| Call_get (type : Key)
| Call_start
| Call_end.

(** The scope after thread [t] made the call, whether it returned or
    raised.  [start] and [end] exist on [RequestScope] only: on the other
    classes the attribute lookup fails and the scope is untouched. *)
Definition perform {c} (t : Tid) (call : Call) : Scope c -> Scope c :=
  match call with
  | Call_bind type to => fun s => snd (Self.bind t type to s)
  | Call_unbind type => fun s => snd (Self.unbind t type s)
  | Call_is_bound type => fun s => snd (Self.is_bound t type s)
  | Call_bind_factory type factory =>
      fun s => snd (Self.bind_factory t type factory s)
  | Call_unbind_factory type => fun s => snd (Self.unbind_factory t type s)
  | Call_is_factory_bound type =>
      fun s => snd (Self.is_factory_bound t type s)
  | Call_get type => fun s => snd (Self.get t type s)
  | Call_start =>
      match c with
      | RequestScope => fun s => snd (RequestScope.start t s)
      | _ => fun s => s
      end
  | Call_end =>
      match c with
      | RequestScope => fun s => snd (RequestScope.end_ t s)
      | _ => fun s => s
      end
  end.

(** The scope after a sequence of calls, each made by some thread. *)
Fixpoint history {c} (calls : list (Tid * Call)) (s : Scope c) : Scope c :=
  match calls with
  | [] => s
  | (t, call) :: rest => history rest (perform t call s)
  end.

(** Whether the binding store keeps one mapping per thread. *)
Definition thread_local (c : ScopeClass) : bool :=
  match c with
  | ApplicationScope => false
  | _ => true
  end.

(** Whether the call, made on a scope of class [c], replaces or removes
    the binding of [k] in the mapping of the thread that makes it:
    [bind(k, _)], [unbind(k)], and [end()] where the class has it. *)
Definition rebinds (c : ScopeClass) (k : Key) (call : Call) : bool :=
  match call with
  | Call_bind type _ => bool_decide (type = k)
  | Call_unbind type => bool_decide (type = k)
  | Call_end =>
      match c with
      | RequestScope => true
      | _ => false
      end
  | _ => false
  end.

(** Whether the call [tc.2] made by thread [tc.1] can change what
    thread [t] has bound for [k]: it must rebind [k], and be made by [t]
    itself unless all threads share one mapping. *)
Definition disturbs (c : ScopeClass) (t : Tid) (k : Key)
    (tc : Tid * Call) : bool :=
  (negb (thread_local c) || bool_decide (fst tc = t))
  && rebinds c k (snd tc).

(** Every registered factory is callable. *)
Definition callable_factories {c} (s : Scope c) : Prop :=
  forall k f, _factories s !! k = Some f -> callable f = true.

(** A thread without a started request holds no bindings. *)
Definition idle_is_empty (s : Scope RequestScope) : Prop :=
  forall t,
    RequestLocalBindings.request_started (_bindings s) t = false ->
    bindings_of s t = ∅.

(** What the threads other than [t] see is the same in [s] and [s']. *)
Definition other_threads_kept {c} (t : Tid) (s s' : Scope c) : Prop :=
  forall t', t' <> t ->
    bindings_of s' t' = bindings_of s t' /\ accepts s' t' = accepts s t'.

(** A factory that fails on the first call the scope makes and returns
    [7] afterwards. *)
Definition flaky_factory : Obj :=
  PyCallable (fun n =>
    match n with
    | O => Throws (Raised "IOError")
    | S _ => Returns (PyInt 7)
    end).

(** A factory that raises [NoRequestError] itself, as one that looks
    its result up in another, idle, request scope does. *)
Definition refusing_factory : Obj :=
  PyCallable (fun _ => Throws NoRequestError).

(** A [RequestScope] after [bind_factory(int, refusing)] and [start()]
    by thread 0. *)
Definition refusing_request_scope : Scope RequestScope :=
  snd (RequestScope.start 0
         (snd (Self.bind_factory 0 "int" refusing_factory
                 RequestScope.__init__))).

(** A [ThreadScope] after [bind_factory(int, flaky)]. *)
Definition thread_scope_with_flaky_factory : Scope ThreadScope :=
  snd (Self.bind_factory 0 "int" flaky_factory ThreadScope.__init__).

(** * Verification *)

(** ** Thread-local storage *)

Section ThreadLocalFacts.
Context {X : Type} (init : Local X).
Implicit Types (b : gmap Tid (Local X)) (t : Tid) (d : dict).

Lemma this_set_data b t d :
  ThreadLocalBindings.this init (ThreadLocalBindings.set_data init b t d) t
  = MkLocal d (attrs (ThreadLocalBindings.this init b t)).
Proof.
  unfold ThreadLocalBindings.this at 1, ThreadLocalBindings.set_data.
  by rewrite lookup_insert_eq.
Qed.

Lemma this_set_attrs b t x :
  ThreadLocalBindings.this init (ThreadLocalBindings.set_attrs init b t x) t
  = MkLocal (_data (ThreadLocalBindings.this init b t)) x.
Proof.
  unfold ThreadLocalBindings.this at 1, ThreadLocalBindings.set_attrs.
  by rewrite lookup_insert_eq.
Qed.

Lemma this_set_data_other b t t' d :
  t ≠ t' ->
  ThreadLocalBindings.this init (ThreadLocalBindings.set_data init b t d) t'
  = ThreadLocalBindings.this init b t'.
Proof.
  intros Hne. unfold ThreadLocalBindings.this, ThreadLocalBindings.set_data.
  by rewrite lookup_insert_ne.
Qed.

Lemma this_set_attrs_other b t t' x :
  t ≠ t' ->
  ThreadLocalBindings.this init (ThreadLocalBindings.set_attrs init b t x) t'
  = ThreadLocalBindings.this init b t'.
Proof.
  intros Hne. unfold ThreadLocalBindings.this, ThreadLocalBindings.set_attrs.
  by rewrite lookup_insert_ne.
Qed.

Lemma this_fresh b t :
  b !! t = None -> ThreadLocalBindings.this init b t = init.
Proof. intros Hb. unfold ThreadLocalBindings.this. by rewrite Hb. Qed.
End ThreadLocalFacts.

(** ** The dict interface, through the calling thread's view *)

Section StoreFacts.
Context {c : ScopeClass}.
Implicit Types (b : Bindings c) (t : Tid) (k : Key) (v : Obj).

Lemma contains_view b t k :
  Store.contains b t k = bool_decide (is_Some (Store.view b t !! k)).
Proof. by destruct c. Qed.

Lemma contains_Some b t k v :
  Store.view b t !! k = Some v -> Store.contains b t k = true.
Proof.
  intros Hk. rewrite contains_view, Hk. by apply bool_decide_eq_true_2.
Qed.

Lemma contains_None b t k :
  Store.view b t !! k = None -> Store.contains b t k = false.
Proof.
  intros Hk. rewrite contains_view, Hk.
  apply bool_decide_eq_false_2. by intros [? ?].
Qed.

Lemma contains_true b t k :
  Store.contains b t k = true -> is_Some (Store.view b t !! k).
Proof. rewrite contains_view. apply bool_decide_eq_true_1. Qed.

Lemma contains_false b t k :
  Store.contains b t k = false -> Store.view b t !! k = None.
Proof.
  rewrite contains_view. intros Hk%bool_decide_eq_false_1.
  by apply eq_None_not_Some.
Qed.

Lemma get_view b t k :
  Store.get b t k = default PyNone (Store.view b t !! k).
Proof. by destruct c. Qed.

Lemma view_setitem b t k v :
  Store.view (Store.setitem b t k v) t = <[k := v]> (Store.view b t).
Proof.
  destruct c; simpl; [done | |];
    unfold ThreadLocalBindings.__setitem__; by rewrite this_set_data.
Qed.

Lemma started_setitem b t k v :
  Store.started (Store.setitem b t k v) t = Store.started b t.
Proof.
  destruct c; simpl; [done | done |].
  unfold RequestLocalBindings.request_started,
    ThreadLocalBindings.__setitem__.
  by rewrite this_set_data.
Qed.

Lemma delitem_Some b t k v :
  Store.view b t !! k = Some v ->
  exists b', Store.delitem b t k = Ok b'
    /\ Store.view b' t = delete k (Store.view b t)
    /\ Store.started b' t = Store.started b t.
Proof.
  destruct c; simpl; intros Hk.
  - rewrite Hk. by eexists.
  - unfold ThreadLocalBindings.__delitem__. rewrite Hk.
    eexists. split; [done |]. by rewrite this_set_data.
  - unfold ThreadLocalBindings.__delitem__,
      RequestLocalBindings.request_started. rewrite Hk.
    eexists. split; [done |]. by rewrite this_set_data.
Qed.
End StoreFacts.

(** ** Running methods *)

Ltac step_method :=
  unfold mbind, Method_bind, mret, Method_ret, gets, lift, raise, pass,
    set_bindings, set_factories, info; simpl.

Section GuardFacts.
Implicit Types (s : Scope RequestScope) (t : Tid) (k : Key).

Lemma request_required_started s t :
  accepts s t = true -> RequestScope._request_required t s = (Ok (), s).
Proof.
  unfold accepts; simpl. intros Hs.
  unfold RequestScope._request_required. step_method. by rewrite Hs.
Qed.

Lemma request_required_not_started s t :
  accepts s t = false ->
  RequestScope._request_required t s = (Err NoRequestError, s).
Proof.
  unfold accepts; simpl. intros Hs.
  unfold RequestScope._request_required. step_method. by rewrite Hs.
Qed.
End GuardFacts.

Section MethodFacts.
Context {c : ScopeClass}.
Implicit Types (s : Scope c) (t : Tid) (k : Key) (v : Obj).

(** With the guard open, the overriding methods are the inherited ones. *)
Lemma self_unbind_accepted s t k :
  accepts s t = true -> Self.unbind t k s = AbstractScope.unbind t k s.
Proof.
  destruct c; [done | done |]. intros Hs. simpl.
  unfold RequestScope.unbind. unfold mbind at 1, Method_bind at 1.
  by rewrite request_required_started.
Qed.

Lemma self_bind_accepted s t k v :
  accepts s t = true ->
  Self.bind t k v s = AbstractScope.bind Self.unbind t k v s.
Proof.
  destruct c; [done | done |]. intros Hs. simpl.
  unfold RequestScope.bind. unfold mbind at 1, Method_bind at 1.
  by rewrite request_required_started.
Qed.

Lemma self_get_accepted s t k :
  accepts s t = true -> Self.get t k s = AbstractScope.get Self.bind t k s.
Proof.
  destruct c; [done | done |]. intros Hs. simpl.
  unfold RequestScope.get. unfold mbind at 1, Method_bind at 1.
  by rewrite request_required_started.
Qed.

Lemma abstract_unbind_absent s t k :
  bindings_of s t !! k = None -> AbstractScope.unbind t k s = (Ok (), s).
Proof.
  intros Hk. unfold AbstractScope.unbind. step_method.
  by rewrite (contains_None _ _ _ Hk).
Qed.

Lemma abstract_unbind_present s t k v :
  bindings_of s t !! k = Some v ->
  exists s', AbstractScope.unbind t k s = (Ok (), s')
    /\ bindings_of s' t = delete k (bindings_of s t)
    /\ accepts s' t = accepts s t
    /\ _factories s' = _factories s
    /\ logged s' = logged s ++ [Unbound k]
    /\ invoked s' = invoked s.
Proof.
  intros Hk. unfold AbstractScope.unbind. step_method.
  rewrite (contains_Some _ _ _ _ Hk).
  destruct (delitem_Some _ _ _ _ Hk) as (b' & -> & Hview & Hst).
  eexists. split; [done |]. by repeat split.
Qed.

Lemma abstract_bind_fresh (self_unbind : Tid -> Key -> Method c unit) s t k v :
  bindings_of s t !! k = None ->
  AbstractScope.bind self_unbind t k v s
  = (Ok (), MkScope (_factories s) (Store.setitem (_bindings s) t k v)
              (logged s ++ [Bound k v]) (invoked s)).
Proof.
  intros Hk. unfold AbstractScope.bind, AbstractScope.is_bound. step_method.
  by rewrite (contains_None _ _ _ Hk).
Qed.

(** What a completed [bind] leaves behind. *)
Lemma self_bind_effect s t k v :
  accepts s t = true ->
  exists s', Self.bind t k v s = (Ok (), s')
    /\ bindings_of s' t = <[k := v]> (bindings_of s t)
    /\ accepts s' t = true
    /\ _factories s' = _factories s
    /\ invoked s' = invoked s
    /\ logged s' = logged s ++
         (if Store.contains (_bindings s) t k
          then [Overriding k; Unbound k; Bound k v] else [Bound k v]).
Proof.
  intros Hs. rewrite self_bind_accepted by done.
  destruct (Store.contains (_bindings s) t k) eqn:Hc.
  - apply contains_true in Hc as [w Hw].
    unfold AbstractScope.bind, AbstractScope.is_bound. step_method.
    rewrite (contains_Some _ _ _ _ Hw).
    set (s1 := MkScope _ _ (logged s ++ [Overriding k]) _).
    assert (Hs1 : accepts s1 t = true) by done.
    rewrite (self_unbind_accepted s1 t k Hs1).
    destruct (abstract_unbind_present s1 t k w Hw)
      as (s2 & -> & Hb & Ha & Hf & Hl & Hi).
    eexists. split; [done |]. unfold bindings_of, accepts in *; simpl in *.
    rewrite view_setitem, started_setitem, Hb, Ha, Hl, insert_delete_eq.
    by rewrite <- !app_assoc.
  - apply contains_false in Hc.
    rewrite (abstract_bind_fresh _ _ _ _ _ Hc).
    eexists. split; [done |]. unfold bindings_of, accepts in *; simpl.
    by rewrite view_setitem, started_setitem.
Qed.
End MethodFacts.

Section GetFacts.
Context {c : ScopeClass}.
Implicit Types (s : Scope c) (t : Tid) (k : Key) (v : Obj).

Lemma is_bound_reads s t k :
  Self.is_bound t k s
  = (Ok (bool_decide (is_Some (bindings_of s t !! k))), s).
Proof.
  unfold Self.is_bound, AbstractScope.is_bound. step_method.
  by rewrite contains_view.
Qed.

Lemma is_factory_bound_reads s t k :
  Self.is_factory_bound t k s
  = (Ok (bool_decide (is_Some (_factories s !! k))), s).
Proof. done. Qed.

Lemma abstract_get_bound (self_bind : Tid -> Key -> Obj -> Method c unit)
    s t k v :
  bindings_of s t !! k = Some v ->
  AbstractScope.get self_bind t k s = (Ok v, s).
Proof.
  intros Hk. unfold AbstractScope.get. step_method.
  rewrite (contains_Some _ _ _ _ Hk), get_view.
  unfold bindings_of in Hk. by rewrite Hk.
Qed.

Lemma abstract_get_absent (self_bind : Tid -> Key -> Obj -> Method c unit)
    s t k :
  bindings_of s t !! k = None ->
  _factories s !! k = None ->
  AbstractScope.get self_bind t k s = (Ok PyNone, s).
Proof.
  intros Hk Hf. unfold AbstractScope.get. step_method.
  by rewrite (contains_None _ _ _ Hk), Hf.
Qed.

(** The factory branch of [get], up to the call of [self.bind]. *)
Lemma abstract_get_factory (self_bind : Tid -> Key -> Obj -> Method c unit)
    s t k f :
  bindings_of s t !! k = None ->
  _factories s !! k = Some f ->
  AbstractScope.get self_bind t k s
  = match invoke f s with
    | (Ok inst, s1) =>
        match self_bind t k inst s1 with
        | (Ok _, s2) => (Ok inst, s2)
        | (Err e, s2) => (Err e, s2)
        end
    | (Err e, s1) => (Err e, s1)
    end.
Proof.
  intros Hk Hf. unfold AbstractScope.get. step_method.
  rewrite (contains_None _ _ _ Hk), Hf. simpl.
  destruct (invoke f s) as [[inst | e] s1]; [| done].
  by destruct (self_bind t k inst s1) as [[[] | e] s2].
Qed.

Lemma self_get_bound s t k v :
  accepts s t = true ->
  bindings_of s t !! k = Some v ->
  Self.get t k s = (Ok v, s).
Proof.
  intros Hs Hk. rewrite self_get_accepted by done.
  by apply abstract_get_bound.
Qed.

Lemma self_get_absent s t k :
  accepts s t = true ->
  bindings_of s t !! k = None ->
  _factories s !! k = None ->
  Self.get t k s = (Ok PyNone, s).
Proof.
  intros Hs Hk Hf. rewrite self_get_accepted by done.
  by apply abstract_get_absent.
Qed.

Lemma self_get_factory s t k body v :
  accepts s t = true ->
  bindings_of s t !! k = None ->
  _factories s !! k = Some (PyCallable body) ->
  body (length (invoked s)) = Returns v ->
  exists s', Self.get t k s = (Ok v, s')
    /\ bindings_of s' t = <[k := v]> (bindings_of s t)
    /\ accepts s' t = true
    /\ _factories s' = _factories s
    /\ invoked s' = invoked s ++ [PyCallable body]
    /\ logged s' = logged s ++ [Bound k v].
Proof.
  intros Hs Hk Hf Hv. rewrite self_get_accepted by done.
  rewrite (abstract_get_factory _ _ _ _ _ Hk Hf).
  unfold invoke. rewrite Hv.
  set (s1 := MkScope _ _ _ (invoked s ++ [PyCallable body])).
  assert (Hs1 : accepts s1 t = true) by done.
  destruct (self_bind_effect s1 t k v Hs1)
    as (s2 & -> & Hb & Ha & Hfs & Hi & Hl).
  exists s2. split; [done |]. repeat split; try done.
  rewrite Hl. change (Store.contains (_bindings s1) t k)
    with (Store.contains (_bindings s) t k).
  by rewrite (contains_None _ _ _ Hk).
Qed.
End GetFacts.

(** * The binding protocol *)

(** C1, as the code has it: [bind_factory(k, x)] with a non-callable [x]
    raises [FactoryNotCallable(x)] before anything is touched.  The scope
    is left exactly as it was, so a factory bound for [k] before the call
    is still bound, and still the same factory, after it. *)
Theorem bind_factory_non_callable_keeps_factory
    {c} (s : Scope c) (t : Tid) (k : Key) (x f : Obj) :
  _factories s !! k = Some f ->
  callable x = false ->
  Self.bind_factory t k x s = (Err (FactoryNotCallable x), s)
  /\ Self.is_factory_bound t k s = (Ok true, s)
  /\ _factories (snd (Self.bind_factory t k x s)) !! k = Some f.
Proof.
  intros Hf Hx.
  assert (Hraise : Self.bind_factory t k x s = (Err (FactoryNotCallable x), s)).
  { unfold Self.bind_factory, AbstractScope.bind_factory. step_method.
    by rewrite Hx. }
  rewrite Hraise. repeat split; [| done].
  rewrite is_factory_bound_reads, Hf. by rewrite bool_decide_eq_true_2.
Qed.

Lemma bind_factory_non_callable_keeps_factory_witness :
  Self.bind_factory 0 "list" (PyInt 3) thread_scope_with_factory
  = (Err (FactoryNotCallable (PyInt 3)), thread_scope_with_factory)
  /\ Self.is_factory_bound 0 "list" thread_scope_with_factory
     = (Ok true, thread_scope_with_factory)
  /\ _factories (snd (Self.bind_factory 0 "list" (PyInt 3)
                        thread_scope_with_factory)) !! "list"
     = Some list_factory.
Proof.
  apply (bind_factory_non_callable_keeps_factory
           thread_scope_with_factory 0 "list" (PyInt 3) list_factory);
    reflexivity.
Defined.

(** C1, as stated, fails: on a [ThreadScope] with a factory bound for
    [list], [bind_factory(list, 3)] raises [FactoryNotCallable(3)], and
    afterwards [is_factory_bound(list)] is true, not false. *)
Lemma bind_factory_non_callable_unbinds_counterexample :
  fst (Self.is_factory_bound 0 "list" thread_scope_with_factory) = Ok true
  /\ callable (PyInt 3) = false
  /\ fst (Self.bind_factory 0 "list" (PyInt 3) thread_scope_with_factory)
     = Err (FactoryNotCallable (PyInt 3))
  /\ fst (Self.is_factory_bound 0 "list"
            (snd (Self.bind_factory 0 "list" (PyInt 3)
                    thread_scope_with_factory)))
     = Ok true
  /\ fst (Self.is_factory_bound 0 "list"
            (snd (Self.bind_factory 0 "list" (PyInt 3)
                    thread_scope_with_factory)))
     <> Ok false.
Proof. repeat split; try reflexivity. discriminate. Qed.

Lemma self_bind_refused (s : Scope RequestScope) (t : Tid) (k : Key) (v : Obj) :
  accepts s t = false -> RequestScope.bind t k v s = (Err NoRequestError, s).
Proof.
  intros Hs. unfold RequestScope.bind. unfold mbind at 1, Method_bind at 1.
  by rewrite request_required_not_started.
Qed.

Lemma self_unbind_refused (s : Scope RequestScope) (t : Tid) (k : Key) :
  accepts s t = false -> RequestScope.unbind t k s = (Err NoRequestError, s).
Proof.
  intros Hs. unfold RequestScope.unbind. unfold mbind at 1, Method_bind at 1.
  by rewrite request_required_not_started.
Qed.

Lemma self_get_refused (s : Scope RequestScope) (t : Tid) (k : Key) :
  accepts s t = false -> RequestScope.get t k s = (Err NoRequestError, s).
Proof.
  intros Hs. unfold RequestScope.get. unfold mbind at 1, Method_bind at 1.
  by rewrite request_required_not_started.
Qed.

Lemma self_bind_returned {c} (s s1 : Scope c) (t : Tid) (k : Key) (v : Obj) :
  Self.bind t k v s = (Ok (), s1) -> accepts s t = true.
Proof.
  intros Hbind. destruct (accepts s t) eqn:Hs; [done |].
  destruct c; [done | done |]. simpl in Hbind.
  by rewrite self_bind_refused in Hbind.
Qed.

(** Rebinding a bound key: [bind] logs the override, calls [unbind],
    which leaves a scope where the key is not bound, and stores the new
    object in that scope. *)
Lemma self_bind_override {c} (s : Scope c) (t : Tid) (k : Key) (v w : Obj) :
  accepts s t = true ->
  bindings_of s t !! k = Some w ->
  exists s_mid,
    Self.unbind t k (snd (info (Overriding k) s)) = (Ok (), s_mid)
    /\ bindings_of s_mid t = delete k (bindings_of s t)
    /\ accepts s_mid t = true
    /\ logged s_mid = logged s ++ [Overriding k; Unbound k]
    /\ Self.bind t k v s
       = (Ok (), MkScope (_factories s_mid)
                   (Store.setitem (_bindings s_mid) t k v)
                   (logged s_mid ++ [Bound k v]) (invoked s_mid)).
Proof.
  intros Hs Hw.
  set (s1 := snd (info (Overriding k) s)).
  assert (Hs1 : accepts s1 t = true) by done.
  assert (Hw1 : bindings_of s1 t !! k = Some w) by done.
  destruct (abstract_unbind_present s1 t k w Hw1)
    as (s_mid & E & Hb & Ha & Hf & Hl & Hi).
  exists s_mid. rewrite (self_unbind_accepted s1 t k Hs1).
  split; [done |]. split; [done |]. split; [by rewrite Ha |].
  split; [rewrite Hl; simpl; by rewrite <- app_assoc |].
  rewrite self_bind_accepted by done.
  unfold AbstractScope.bind, AbstractScope.is_bound. step_method.
  rewrite (contains_Some _ _ _ _ Hw).
  change (MkScope (_factories s) (_bindings s) (logged s ++ [Overriding k])
            (invoked s)) with s1.
  by rewrite (self_unbind_accepted s1 t k Hs1), E.
Qed.

(** C6, as the code has it: on a scope that lets the calling thread
    through (any [ApplicationScope] or [ThreadScope], a [RequestScope]
    with a started request), [bind(k, v1)] returns, after it [get(k)] is
    [v1] and [is_bound(k)] is true; a second [bind(k, v2)] returns
    without error and leaves [get(k)] at [v2].  The second [bind] first
    unbinds: it logs the override and calls [unbind(k)], which returns a
    scope where [k] is not bound, and it is in that scope that [v2] is
    stored. *)
Theorem bind_then_get_and_rebind
    {c} (s : Scope c) (t : Tid) (k : Key) (v1 v2 : Obj) :
  accepts s t = true ->
  exists s1 s_mid s2,
    Self.bind t k v1 s = (Ok (), s1)
    /\ Self.get t k s1 = (Ok v1, s1)
    /\ Self.is_bound t k s1 = (Ok true, s1)
    /\ Self.bind t k v2 s1 = (Ok (), s2)
    /\ Self.get t k s2 = (Ok v2, s2)
    /\ Self.is_bound t k s2 = (Ok true, s2)
    /\ Self.unbind t k (snd (info (Overriding k) s1)) = (Ok (), s_mid)
    /\ Self.is_bound t k s_mid = (Ok false, s_mid)
    /\ bindings_of s_mid t = delete k (bindings_of s1 t)
    /\ s2 = MkScope (_factories s_mid)
              (Store.setitem (_bindings s_mid) t k v2)
              (logged s_mid ++ [Bound k v2]) (invoked s_mid)
    /\ logged s2 = logged s1 ++ [Overriding k; Unbound k; Bound k v2].
Proof.
  intros Hs.
  destruct (self_bind_effect s t k v1 Hs) as (s1 & E1 & Hb1 & Ha1 & _).
  assert (Hk1 : bindings_of s1 t !! k = Some v1)
    by (rewrite Hb1; apply lookup_insert_eq).
  destruct (self_bind_override s1 t k v2 v1 Ha1 Hk1)
    as (s_mid & Emid & Hbmid & Hamid & Hlmid & E2).
  set (s2 := MkScope (_factories s_mid)
               (Store.setitem (_bindings s_mid) t k v2)
               (logged s_mid ++ [Bound k v2]) (invoked s_mid)) in *.
  assert (Ha2 : accepts s2 t = true).
  { unfold accepts, s2; simpl. by rewrite started_setitem. }
  assert (Hk2 : bindings_of s2 t !! k = Some v2).
  { unfold bindings_of, s2; simpl. rewrite view_setitem.
    apply lookup_insert_eq. }
  exists s1, s_mid, s2.
  split; [done |]. split; [by apply self_get_bound |].
  split; [rewrite is_bound_reads, Hk1; by rewrite bool_decide_eq_true_2 |].
  split; [done |]. split; [by apply self_get_bound |].
  split; [rewrite is_bound_reads, Hk2; by rewrite bool_decide_eq_true_2 |].
  split; [done |].
  split.
  { rewrite is_bound_reads, Hbmid, lookup_delete_eq.
    rewrite bool_decide_eq_false_2; [done |]. by intros [? ?]. }
  split; [done |]. split; [done |].
  unfold s2; simpl. rewrite Hlmid. by rewrite <- app_assoc.
Qed.

Lemma bind_then_get_and_rebind_witness :
  exists s1 s_mid s2,
    Self.bind 0 "str" (PyStr "y") busy_request_scope = (Ok (), s1)
    /\ Self.get 0 "str" s1 = (Ok (PyStr "y"), s1)
    /\ Self.is_bound 0 "str" s1 = (Ok true, s1)
    /\ Self.bind 0 "str" (PyInt 5) s1 = (Ok (), s2)
    /\ Self.get 0 "str" s2 = (Ok (PyInt 5), s2)
    /\ Self.is_bound 0 "str" s2 = (Ok true, s2)
    /\ Self.unbind 0 "str" (snd (info (Overriding "str") s1)) = (Ok (), s_mid)
    /\ Self.is_bound 0 "str" s_mid = (Ok false, s_mid)
    /\ bindings_of s_mid 0 = delete "str" (bindings_of s1 0)
    /\ s2 = MkScope (_factories s_mid)
              (Store.setitem (_bindings s_mid) 0 "str" (PyInt 5))
              (logged s_mid ++ [Bound "str" (PyInt 5)]) (invoked s_mid)
    /\ logged s2
       = logged s1 ++ [Overriding "str"; Unbound "str"; Bound "str" (PyInt 5)].
Proof.
  apply (bind_then_get_and_rebind busy_request_scope 0 "str"
           (PyStr "y") (PyInt 5)).
  reflexivity.
Defined.

(** C6, as stated for every scope, fails: on a [RequestScope] with no
    request started, [bind(str, "x")] raises [NoRequestError], and so
    does the [bind(str, 5)] after it; afterwards [get(str)] raises too
    and [is_bound(str)] is false. *)
Lemma bind_then_get_and_rebind_counterexample :
  Self.bind 0 "str" (PyStr "x") idle_request_scope
  = (Err NoRequestError, idle_request_scope)
  /\ Self.bind 0 "str" (PyInt 5)
       (snd (Self.bind 0 "str" (PyStr "x") idle_request_scope))
     = (Err NoRequestError, idle_request_scope)
  /\ fst (Self.get 0 "str"
            (snd (Self.bind 0 "str" (PyStr "x") idle_request_scope)))
     = Err NoRequestError
  /\ fst (Self.get 0 "str"
            (snd (Self.bind 0 "str" (PyStr "x") idle_request_scope)))
     <> Ok (PyStr "x")
  /\ fst (Self.is_bound 0 "str"
            (snd (Self.bind 0 "str" (PyStr "x") idle_request_scope)))
     = Ok false.
Proof. repeat split; try reflexivity. discriminate. Qed.

(** C9: once [bind(k, None)] has returned, the key is bound and
    [get(k)] returns [None] from the direct binding, leaving the scope as
    it is: a factory bound for [k] stays bound and is not invoked.  The
    value returned is the one [get(k)] returns where [k] has neither
    binding nor factory.  [bind] does return on every scope that lets the
    calling thread through. *)
Theorem bind_none_shadows_factory {c} (s : Scope c) (t : Tid) (k : Key) :
  (accepts s t = true -> exists s1, Self.bind t k PyNone s = (Ok (), s1))
  /\ forall s1,
       Self.bind t k PyNone s = (Ok (), s1) ->
       Self.is_bound t k s1 = (Ok true, s1)
       /\ Self.get t k s1 = (Ok PyNone, s1)
       /\ _factories s1 = _factories s
       /\ invoked (snd (Self.get t k s1)) = invoked s
       /\ forall s0 : Scope c,
            accepts s0 t = true ->
            bindings_of s0 t !! k = None ->
            _factories s0 !! k = None ->
            fst (Self.get t k s0) = fst (Self.get t k s1).
Proof.
  split.
  { intros Hs. destruct (self_bind_effect s t k PyNone Hs) as (s1 & E1 & _).
    by exists s1. }
  intros s1' Hbind. pose proof (self_bind_returned _ _ _ _ _ Hbind) as Hs.
  destruct (self_bind_effect s t k PyNone Hs)
    as (s1 & E1 & Hb1 & Ha1 & Hf1 & Hi1 & _).
  assert (s1' = s1) as -> by congruence.
  assert (Hk1 : bindings_of s1 t !! k = Some PyNone)
    by (rewrite Hb1; apply lookup_insert_eq).
  assert (Hget : Self.get t k s1 = (Ok PyNone, s1))
    by (by apply self_get_bound).
  rewrite Hget. repeat split; try done.
  - rewrite is_bound_reads, Hk1. by rewrite bool_decide_eq_true_2.
  - intros s0 Hs0 Hk0 Hf0. by rewrite self_get_absent.
Qed.

Lemma bind_none_shadows_factory_witness :
  exists s1,
    Self.bind 0 "list" PyNone thread_scope_with_factory = (Ok (), s1)
    /\ Self.is_bound 0 "list" s1 = (Ok true, s1)
    /\ Self.get 0 "list" s1 = (Ok PyNone, s1)
    /\ _factories s1 !! "list" = Some list_factory
    /\ invoked (snd (Self.get 0 "list" s1)) = [].
Proof.
  destruct (bind_none_shadows_factory thread_scope_with_factory 0 "list")
    as (Hreturns & Hafter).
  destruct (Hreturns eq_refl) as (s1 & E1).
  destruct (Hafter s1 E1) as (Hbound & Hget & Hf & Hi & _).
  exists s1. rewrite Hf. repeat split; assumption.
Defined.

(** ** Lookup *)

(** C4, as the code has it: on a scope that lets the calling thread
    through (any [ApplicationScope] or [ThreadScope], a [RequestScope]
    with a started request), [get(k)] resolves in this order: a direct
    binding is returned as it is, whether or not a factory is bound too;
    else the factory bound for [k] is invoked, its result bound and
    returned; else [None] is returned and nothing is raised or changed. *)
Theorem get_resolution_order {c} (s : Scope c) (t : Tid) (k : Key) :
  accepts s t = true ->
  (forall v, bindings_of s t !! k = Some v -> Self.get t k s = (Ok v, s))
  /\ (forall body v,
        bindings_of s t !! k = None ->
        _factories s !! k = Some (PyCallable body) ->
        body (length (invoked s)) = Returns v ->
        exists s', Self.get t k s = (Ok v, s')
          /\ invoked s' = invoked s ++ [PyCallable body]
          /\ bindings_of s' t = <[k := v]> (bindings_of s t))
  /\ (bindings_of s t !! k = None ->
      _factories s !! k = None ->
      Self.get t k s = (Ok PyNone, s)).
Proof.
  intros Hs. split; [| split].
  - intros v Hk. by apply self_get_bound.
  - intros body v Hk Hf Hv.
    destruct (self_get_factory s t k body v Hs Hk Hf Hv)
      as (s' & E & Hb & _ & _ & Hi & _).
    by exists s'.
  - intros Hk Hf. by apply self_get_absent.
Qed.

Lemma get_resolution_order_witness :
  Self.get 0 "str" busy_request_scope = (Ok (PyStr "x"), busy_request_scope)
  /\ (exists s', Self.get 0 "list" busy_request_scope
                 = (Ok (PyInstance "list" 0), s')
        /\ invoked s' = invoked busy_request_scope ++ [list_factory]
        /\ bindings_of s' 0
           = <["list" := PyInstance "list" 0]>
               (bindings_of busy_request_scope 0))
  /\ Self.get 0 "int" busy_request_scope = (Ok PyNone, busy_request_scope).
Proof.
  split; [| split].
  - apply (get_resolution_order busy_request_scope 0 "str"); reflexivity.
  - apply (proj1 (proj2
             (get_resolution_order busy_request_scope 0 "list" eq_refl))
             (fun n => Returns (PyInstance "list" n)));
      reflexivity.
  - apply (get_resolution_order busy_request_scope 0 "int"); reflexivity.
Defined.

(** C4, as stated for every scope, fails: on a [RequestScope] with no
    request started, [get(int)], with neither binding nor factory for
    [int], raises [NoRequestError] where the claim has it return [None]
    without error; and [get(list)], with a factory bound for [list],
    raises too and invokes nothing. *)
Lemma get_resolution_order_counterexample :
  bindings_of idle_request_scope 0 !! "int" = None
  /\ _factories idle_request_scope !! "int" = None
  /\ Self.get 0 "int" idle_request_scope
     = (Err NoRequestError, idle_request_scope)
  /\ fst (Self.get 0 "int" idle_request_scope) <> Ok PyNone
  /\ bindings_of idle_request_scope 0 !! "list" = None
  /\ _factories idle_request_scope !! "list" = Some list_factory
  /\ Self.get 0 "list" idle_request_scope
     = (Err NoRequestError, idle_request_scope)
  /\ invoked (snd (Self.get 0 "list" idle_request_scope)) = [].
Proof. repeat split; try reflexivity. discriminate. Qed.

(** ** Independence of the two maps *)

Lemma self_bind_factories {c} (s : Scope c) (t : Tid) (k : Key) (v : Obj) :
  _factories (snd (Self.bind t k v s)) = _factories s.
Proof.
  destruct (accepts s t) eqn:Hs.
  - by destruct (self_bind_effect s t k v Hs) as (s' & -> & _ & _ & Hf & _).
  - destruct c; [done | done |]. simpl. by rewrite self_bind_refused.
Qed.

Lemma self_unbind_factories {c} (s : Scope c) (t : Tid) (k : Key) :
  _factories (snd (Self.unbind t k s)) = _factories s.
Proof.
  destruct (accepts s t) eqn:Hs.
  - rewrite self_unbind_accepted by done.
    destruct (bindings_of s t !! k) as [v |] eqn:Hk.
    + by destruct (abstract_unbind_present s t k v Hk)
        as (s' & -> & _ & _ & Hf & _).
    + by rewrite abstract_unbind_absent.
  - destruct c; [done | done |]. simpl. by rewrite self_unbind_refused.
Qed.

Lemma self_unbind_factory_bindings {c} (s : Scope c) (t : Tid) (k : Key) :
  _bindings (snd (Self.unbind_factory t k s)) = _bindings s.
Proof.
  unfold Self.unbind_factory, AbstractScope.unbind_factory. step_method.
  by destruct (bool_decide (is_Some (_factories s !! k))).
Qed.

Lemma self_bind_factory_bindings {c} (s : Scope c) (t : Tid) (k : Key)
    (f : Obj) :
  _bindings (snd (Self.bind_factory t k f s)) = _bindings s.
Proof.
  unfold Self.bind_factory, AbstractScope.bind_factory,
    AbstractScope.unbind_factory.
  step_method. destruct (callable f); simpl; [| done].
  by destruct (bool_decide (is_Some (_factories s !! k))).
Qed.

(** C7: whatever they return or raise, [bind_factory] and
    [unbind_factory] leave [_bindings] as it is, so [is_bound] and the
    bindings [get] reads are unchanged for every key and thread; and
    [bind] and [unbind] leave [_factories] as it is, so
    [is_factory_bound] is unchanged for every key. *)
Theorem factories_and_bindings_independent
    {c} (s : Scope c) (t : Tid) (k : Key) (f v : Obj) :
  (_bindings (snd (Self.bind_factory t k f s)) = _bindings s
   /\ _bindings (snd (Self.unbind_factory t k s)) = _bindings s
   /\ forall t' j,
        bindings_of (snd (Self.bind_factory t k f s)) t' !! j
        = bindings_of s t' !! j
        /\ bindings_of (snd (Self.unbind_factory t k s)) t' !! j
           = bindings_of s t' !! j
        /\ fst (Self.is_bound t' j (snd (Self.bind_factory t k f s)))
           = fst (Self.is_bound t' j s)
        /\ fst (Self.is_bound t' j (snd (Self.unbind_factory t k s)))
           = fst (Self.is_bound t' j s))
  /\ (_factories (snd (Self.bind t k v s)) = _factories s
      /\ _factories (snd (Self.unbind t k s)) = _factories s
      /\ forall t' j,
           fst (Self.is_factory_bound t' j (snd (Self.bind t k v s)))
           = fst (Self.is_factory_bound t' j s)
           /\ fst (Self.is_factory_bound t' j (snd (Self.unbind t k s)))
              = fst (Self.is_factory_bound t' j s)).
Proof.
  pose proof (self_bind_factory_bindings s t k f) as Hbf.
  pose proof (self_unbind_factory_bindings s t k) as Huf.
  pose proof (self_bind_factories s t k v) as Hb.
  pose proof (self_unbind_factories s t k) as Hu.
  split; (split; [done | split; [done |]]); intros t' j.
  - rewrite !is_bound_reads. unfold bindings_of. simpl. by rewrite Hbf, Huf.
  - rewrite !is_factory_bound_reads. simpl. by rewrite Hb, Hu.
Qed.

(** * The request scope *)

Section RequestFacts.
Implicit Types (s : Scope RequestScope) (t : Tid) (k : Key) (v : Obj).

Lemma start_effect s t :
  exists s1, RequestScope.start t s = (Ok (), s1)
    /\ accepts s1 t = true
    /\ bindings_of s1 t = bindings_of s t
    /\ _factories s1 = _factories s
    /\ invoked s1 = invoked s
    /\ logged s1 = logged s
    /\ forall t', t' <> t ->
         bindings_of s1 t' = bindings_of s t' /\ accepts s1 t' = accepts s t'.
Proof.
  eexists. split; [done |].
  unfold accepts, bindings_of; simpl.
  unfold RequestLocalBindings.request_started,
    RequestLocalBindings.start_request.
  rewrite this_set_attrs. repeat split; try done;
    by rewrite this_set_attrs_other.
Qed.

Lemma end_effect s t :
  exists s1, RequestScope.end_ t s = (Ok (), s1)
    /\ accepts s1 t = false
    /\ bindings_of s1 t = ∅
    /\ _factories s1 = _factories s
    /\ invoked s1 = invoked s
    /\ logged s1 = logged s
    /\ forall t', t' <> t ->
         bindings_of s1 t' = bindings_of s t' /\ accepts s1 t' = accepts s t'.
Proof.
  eexists. split; [done |].
  unfold accepts, bindings_of; simpl.
  unfold RequestLocalBindings.request_started,
    RequestLocalBindings.end_request, ThreadLocalBindings.clear.
  rewrite this_set_attrs, this_set_data. repeat split; try done;
    by rewrite this_set_attrs_other, this_set_data_other.
Qed.

Lemma invoke_bindings {c} (f : Obj) (s : Scope c) :
  _bindings (snd (invoke f s)) = _bindings s.
Proof.
  unfold invoke. destruct f as [| | | | body]; try done.
  by destruct (body (length (invoked s))).
Qed.

(** Inside [bind], the guarded [unbind] is the inherited one. *)
Lemma abstract_bind_self_unbind {c} (s : Scope c) t k v :
  accepts s t = true ->
  AbstractScope.bind Self.unbind t k v s
  = AbstractScope.bind AbstractScope.unbind t k v s.
Proof.
  intros Hs. unfold AbstractScope.bind, AbstractScope.is_bound. step_method.
  destruct (Store.contains (_bindings s) t k); [| done].
  set (s1 := MkScope _ _ (logged s ++ [Overriding k]) _).
  assert (Hs1 : accepts s1 t = true) by done.
  by rewrite (self_unbind_accepted s1 t k Hs1).
Qed.

(** Inside [get], the guarded [bind] is the inherited one. *)
Lemma abstract_get_self_bind {c} (s : Scope c) t k :
  accepts s t = true ->
  AbstractScope.get Self.bind t k s
  = AbstractScope.get (AbstractScope.bind AbstractScope.unbind) t k s.
Proof.
  intros Hs.
  destruct (bindings_of s t !! k) as [v |] eqn:Hk.
  { by rewrite !(abstract_get_bound _ _ _ _ _ Hk). }
  destruct (_factories s !! k) as [f |] eqn:Hf.
  2: { by rewrite !(abstract_get_absent _ _ _ _ Hk Hf). }
  rewrite !(abstract_get_factory _ _ _ _ _ Hk Hf).
  pose proof (invoke_bindings f s) as Hb.
  destruct (invoke f s) as [[inst | e] s1]; [| done]. simpl in Hb.
  assert (Hs1 : accepts s1 t = true) by (unfold accepts; by rewrite Hb).
  by rewrite (self_bind_accepted s1 t k inst Hs1),
    (abstract_bind_self_unbind s1 t k inst Hs1).
Qed.

(** The outcomes of [get], by the state it is called in. *)
Lemma self_get_cases {c} (s : Scope c) (t : Tid) (k : Key) :
  (accepts s t = false /\ Self.get t k s = (Err NoRequestError, s))
  \/ (accepts s t = true /\ exists v,
        bindings_of s t !! k = Some v /\ Self.get t k s = (Ok v, s))
  \/ (accepts s t = true /\ bindings_of s t !! k = None
      /\ _factories s !! k = None /\ Self.get t k s = (Ok PyNone, s))
  \/ (accepts s t = true /\ bindings_of s t !! k = None
      /\ exists f, _factories s !! k = Some f /\ callable f = false
           /\ Self.get t k s = (Err TypeError, s))
  \/ (accepts s t = true /\ bindings_of s t !! k = None
      /\ exists body e (s' : Scope c),
           _factories s !! k = Some (PyCallable body)
           /\ body (length (invoked s)) = Throws e
           /\ Self.get t k s = (Err e, s')
           /\ _bindings s' = _bindings s /\ _factories s' = _factories s
           /\ invoked s' = invoked s ++ [PyCallable body])
  \/ (accepts s t = true /\ bindings_of s t !! k = None
      /\ exists body v (s' : Scope c),
           _factories s !! k = Some (PyCallable body)
           /\ body (length (invoked s)) = Returns v
           /\ Self.get t k s = (Ok v, s')
           /\ bindings_of s' t = <[k := v]> (bindings_of s t)
           /\ accepts s' t = true /\ _factories s' = _factories s
           /\ invoked s' = invoked s ++ [PyCallable body]).
Proof.
  destruct (accepts s t) eqn:Hs.
  2: { left. split; [done |]. destruct c; [done | done |].
       by apply self_get_refused. }
  right. destruct (bindings_of s t !! k) as [v |] eqn:Hk.
  { left. split; [done |]. exists v. split; [done |].
    by apply self_get_bound. }
  right. destruct (_factories s !! k) as [f |] eqn:Hf.
  2: { left. repeat split; try done. by apply self_get_absent. }
  right. destruct (callable f) eqn:Hcall.
  2: { left. repeat split; try done. exists f. repeat split; try done.
       rewrite self_get_accepted by done.
       rewrite (abstract_get_factory _ _ _ _ _ Hk Hf).
       by destruct f. }
  right. destruct f as [| | | | body]; try done.
  destruct (body (length (invoked s))) as [v | e] eqn:Hv.
  - right. repeat split; try done.
    destruct (self_get_factory s t k body v Hs Hk Hf Hv)
      as (s' & E & Hb & Ha & Hfs & Hi & _).
    by exists body, v, s'.
  - left. repeat split; try done. exists body, e.
    rewrite self_get_accepted by done.
    rewrite (abstract_get_factory _ _ _ _ _ Hk Hf).
    unfold invoke. rewrite Hv. by eexists.
Qed.
End RequestFacts.

(** C2, as the code has it: in a [RequestScope], [bind] and [unbind]
    raise [NoRequestError] exactly when the calling thread has no started
    request; [get] raises it whenever the thread has none, and with a
    started request only when the call of the factory registered for the
    key raised it.  Refused calls leave the scope untouched; with a
    started request each of the three is the inherited [AbstractScope]
    method. *)
Theorem request_guard
    (s : Scope RequestScope) (t : Tid) (k : Key) (v : Obj) :
  (fst (RequestScope.bind t k v s) = Err NoRequestError
     <-> RequestLocalBindings.request_started (_bindings s) t = false)
  /\ (fst (RequestScope.unbind t k s) = Err NoRequestError
        <-> RequestLocalBindings.request_started (_bindings s) t = false)
  /\ (RequestLocalBindings.request_started (_bindings s) t = false ->
      RequestScope.bind t k v s = (Err NoRequestError, s)
      /\ RequestScope.unbind t k s = (Err NoRequestError, s)
      /\ RequestScope.get t k s = (Err NoRequestError, s))
  /\ (RequestLocalBindings.request_started (_bindings s) t = true ->
      RequestScope.bind t k v s
      = AbstractScope.bind AbstractScope.unbind t k v s
      /\ RequestScope.unbind t k s = AbstractScope.unbind t k s
      /\ RequestScope.get t k s
         = AbstractScope.get (AbstractScope.bind AbstractScope.unbind) t k s
      /\ (fst (RequestScope.get t k s) = Err NoRequestError ->
          exists body,
            bindings_of s t !! k = None
            /\ _factories s !! k = Some (PyCallable body)
            /\ body (length (invoked s)) = Throws NoRequestError)).
Proof.
  change (RequestLocalBindings.request_started (_bindings s) t)
    with (accepts s t).
  destruct (accepts s t) eqn:Hs.
  - destruct (self_bind_effect s t k v Hs) as (s1 & Hbind & _).
    pose proof (self_unbind_accepted s t k Hs) as Hunbind.
    simpl in Hbind, Hunbind.
    assert (Hu : exists s2, RequestScope.unbind t k s = (Ok (), s2)).
    { rewrite Hunbind.
      destruct (bindings_of s t !! k) as [w |] eqn:Hk.
      - destruct (abstract_unbind_present s t k w Hk) as (s2 & E & _).
        by exists s2.
      - rewrite abstract_unbind_absent by done. by exists s. }
    destruct Hu as (s2 & Hu).
    split; [by rewrite Hbind |]. split; [by rewrite Hu |].
    split; [done |]. intros _.
    split; [| split; [done | split]].
    + rewrite <- (abstract_bind_self_unbind s t k v Hs).
      by apply (self_bind_accepted s t k v).
    + rewrite <- (abstract_get_self_bind s t k Hs).
      by apply (self_get_accepted s t k).
    + change (RequestScope.get t k s) with (Self.get t k s).
      destruct (self_get_cases s t k)
        as [(Hs' & E) | [(_ & w & _ & E) | [(_ & _ & _ & E) |
            [(_ & _ & f & _ & _ & E) |
             [(_ & Hk & body & e & s' & Hf & Hv & E & _) |
              (_ & _ & body & w & s' & _ & _ & E & _)]]]]];
        rewrite E; simpl; try done.
      * congruence.
      * intros [= ->]. by exists body.
  - rewrite self_bind_refused, self_unbind_refused, self_get_refused by done.
    by repeat split.
Qed.

Lemma request_guard_witness :
  (RequestScope.bind 0 "str" (PyStr "x") idle_request_scope
   = (Err NoRequestError, idle_request_scope)
   /\ RequestScope.unbind 0 "str" idle_request_scope
      = (Err NoRequestError, idle_request_scope)
   /\ RequestScope.get 0 "str" idle_request_scope
      = (Err NoRequestError, idle_request_scope))
  /\ (RequestScope.bind 0 "str" (PyStr "y") busy_request_scope
      = AbstractScope.bind AbstractScope.unbind 0 "str" (PyStr "y")
          busy_request_scope
      /\ RequestScope.unbind 0 "str" busy_request_scope
         = AbstractScope.unbind 0 "str" busy_request_scope
      /\ RequestScope.get 0 "str" busy_request_scope
         = AbstractScope.get (AbstractScope.bind AbstractScope.unbind)
             0 "str" busy_request_scope)
  /\ exists body,
       bindings_of refusing_request_scope 0 !! "int" = None
       /\ _factories refusing_request_scope !! "int" = Some (PyCallable body)
       /\ body (length (invoked refusing_request_scope))
          = Throws NoRequestError.
Proof.
  split; [| split].
  - apply (request_guard idle_request_scope 0 "str" (PyStr "x")).
    reflexivity.
  - destruct (request_guard busy_request_scope 0 "str" (PyStr "y"))
      as (_ & _ & _ & Hstarted).
    destruct (Hstarted eq_refl) as (Hb & Hu & Hg & _).
    repeat split; assumption.
  - destruct (request_guard refusing_request_scope 0 "int" PyNone)
      as (_ & _ & _ & Hstarted).
    destruct (Hstarted eq_refl) as (_ & _ & _ & Hsource).
    apply Hsource. reflexivity.
Defined.

(** C2, as stated, fails for [get]: on a [RequestScope] where thread 0
    has started a request and the factory registered for [int] raises
    [NoRequestError] itself, [get(int)] raises [NoRequestError] although
    the thread's request flag is true. *)
Lemma request_guard_counterexample :
  RequestLocalBindings.request_started (_bindings refusing_request_scope) 0
  = true
  /\ fst (RequestScope.get 0 "int" refusing_request_scope)
     = Err NoRequestError
  /\ ~ (fst (RequestScope.get 0 "int" refusing_request_scope)
        = Err NoRequestError
        <-> RequestLocalBindings.request_started
              (_bindings refusing_request_scope) 0 = false).
Proof.
  split; [reflexivity | split; [reflexivity |]].
  intros [Hfalse _]. specialize (Hfalse eq_refl). discriminate Hfalse.
Qed.

(** A bound factory is invoked by [get] whenever there is no direct
    binding, whether its call returns or raises. *)
Lemma self_get_invokes {c} (s : Scope c) (t : Tid) (k : Key)
    (body : nat -> Outcome) :
  accepts s t = true ->
  bindings_of s t !! k = None ->
  _factories s !! k = Some (PyCallable body) ->
  invoked (snd (Self.get t k s)) = invoked s ++ [PyCallable body].
Proof.
  intros Hs Hk Hf.
  destruct (body (length (invoked s))) as [v | name] eqn:Hv.
  - by destruct (self_get_factory s t k body v Hs Hk Hf Hv)
      as (s' & -> & _ & _ & _ & Hi & _).
  - rewrite self_get_accepted by done.
    rewrite (abstract_get_factory _ _ _ _ _ Hk Hf).
    unfold invoke. by rewrite Hv.
Qed.

(** C5: [end()] returns, empties the calling thread's bindings, resets
    its flag and leaves [_factories] (and the other threads) alone,
    whether or not a request was active; so a factory bound before
    [end()] is still bound in the next request of that thread, where the
    first [get] of its key invokes it again and binds what it returns. *)
Theorem end_clears_bindings_keeps_factories
    (s : Scope RequestScope) (t : Tid) :
  exists s1,
    RequestScope.end_ t s = (Ok (), s1)
    /\ bindings_of s1 t = ∅
    /\ RequestLocalBindings.request_started (_bindings s1) t = false
    /\ _factories s1 = _factories s
    /\ (forall t', t' <> t -> bindings_of s1 t' = bindings_of s t')
    /\ (forall k, fst (Self.is_factory_bound t k s1)
                  = fst (Self.is_factory_bound t k s))
    /\ forall k body,
         _factories s !! k = Some (PyCallable body) ->
         exists s2,
           RequestScope.start t s1 = (Ok (), s2)
           /\ Self.is_factory_bound t k s2 = (Ok true, s2)
           /\ invoked (snd (RequestScope.get t k s2))
              = invoked s ++ [PyCallable body]
           /\ forall v,
                body (length (invoked s)) = Returns v ->
                exists s3,
                  RequestScope.get t k s2 = (Ok v, s3)
                  /\ bindings_of s3 t = {[k := v]}.
Proof.
  destruct (end_effect s t) as (s1 & E1 & Ha1 & Hb1 & Hf1 & Hi1 & _ & Ho1).
  exists s1. repeat split; try done.
  - intros t' Ht'. by apply Ho1.
  - intros k. rewrite !is_factory_bound_reads. simpl. by rewrite Hf1.
  - intros k body Hf.
    destruct (start_effect s1 t) as (s2 & E2 & Ha2 & Hb2 & Hf2 & Hi2 & _).
    assert (Hk2 : bindings_of s2 t !! k = None)
      by (by rewrite Hb2, Hb1).
    assert (Hfk2 : _factories s2 !! k = Some (PyCallable body))
      by (by rewrite Hf2, Hf1).
    exists s2. repeat split; try done.
    + rewrite is_factory_bound_reads, Hfk2. by rewrite bool_decide_eq_true_2.
    + change (RequestScope.get t k s2) with (Self.get t k s2).
      rewrite (self_get_invokes s2 t k body Ha2 Hk2 Hfk2).
      by rewrite Hi2, Hi1.
    + intros v Hv.
      assert (Hv2 : body (length (invoked s2)) = Returns v)
        by (by rewrite Hi2, Hi1).
      destruct (self_get_factory s2 t k body v Ha2 Hk2 Hfk2 Hv2)
        as (s3 & E3 & Hb3 & _).
      exists s3. split; [done |]. by rewrite Hb3, Hb2, Hb1.
Qed.

Lemma end_clears_bindings_keeps_factories_witness :
  exists s1 s2 s3,
    RequestScope.end_ 0 served_request_scope = (Ok (), s1)
    /\ RequestScope.start 0 s1 = (Ok (), s2)
    /\ Self.is_factory_bound 0 "list" s2 = (Ok true, s2)
    /\ RequestScope.get 0 "list" s2 = (Ok (PyInstance "list" 1), s3)
    /\ invoked s3 = [list_factory; list_factory]
    /\ bindings_of s3 0 = {["list" := PyInstance "list" 1]}.
Proof.
  destruct (end_clears_bindings_keeps_factories served_request_scope 0)
    as (s1 & E1 & _ & _ & _ & _ & _ & Hnext).
  destruct (Hnext "list" (fun n => Returns (PyInstance "list" n)) eq_refl)
    as (s2 & E2 & Hfb & Hi & Hget).
  destruct (Hget (PyInstance "list" 1) eq_refl) as (s3 & E3 & Hb3).
  exists s1, s2, s3. rewrite E3 in Hi. repeat split; assumption.
Defined.

(** C8: in a [RequestScope], [is_bound] and [is_factory_bound] return
    without raising whatever the request flag of the calling thread is:
    [is_bound] reports membership in whatever bindings that thread's
    storage holds, [is_factory_bound] membership in the factory map, and
    for a thread that never touched the scope [is_bound] reads an empty
    map. *)
Theorem probes_are_unguarded (s : Scope RequestScope) (t : Tid) (k : Key) :
  Self.is_bound t k s
  = (Ok (bool_decide (is_Some (bindings_of s t !! k))), s)
  /\ Self.is_factory_bound t k s
     = (Ok (bool_decide (is_Some (_factories s !! k))), s)
  /\ ((_bindings s : gmap Tid (Local bool)) !! t = None ->
      bindings_of s t = ∅ /\ Self.is_bound t k s = (Ok false, s)).
Proof.
  split; [apply is_bound_reads | split; [apply is_factory_bound_reads |]].
  intros Ht.
  assert (Hb : bindings_of s t = ∅).
  { unfold bindings_of; simpl. by rewrite this_fresh. }
  split; [done |]. rewrite is_bound_reads, Hb, lookup_empty.
  rewrite bool_decide_eq_false_2; [done |]. by intros [? ?].
Qed.

Lemma probes_are_unguarded_witness :
  RequestLocalBindings.request_started (_bindings idle_request_scope) 0 = false
  /\ bindings_of idle_request_scope 0 = ∅
  /\ Self.is_bound 0 "list" idle_request_scope = (Ok false, idle_request_scope)
  /\ Self.is_factory_bound 0 "list" idle_request_scope
     = (Ok true, idle_request_scope).
Proof.
  split; [reflexivity |].
  destruct (probes_are_unguarded idle_request_scope 0 "list")
    as (_ & Hf & Hfresh).
  destruct (Hfresh eq_refl) as (Hb & Hbound).
  repeat split; assumption.
Defined.

(** C10: [start()] and [end()] have no guard.  [end()] on a thread
    without an active request returns, empties that thread's bindings
    and leaves the flag false; [start()] returns on any scope, sets the
    flag and keeps the thread's bindings, so a second [start()] without
    [end()] in between leaves the flag true and clears nothing. *)
Theorem start_end_are_unguarded (s : Scope RequestScope) (t : Tid) :
  (RequestLocalBindings.request_started (_bindings s) t = false ->
   exists s1,
     RequestScope.end_ t s = (Ok (), s1)
     /\ bindings_of s1 t = ∅
     /\ RequestLocalBindings.request_started (_bindings s1) t = false)
  /\ (exists s1 s2,
        RequestScope.start t s = (Ok (), s1)
        /\ RequestLocalBindings.request_started (_bindings s1) t = true
        /\ bindings_of s1 t = bindings_of s t
        /\ RequestScope.start t s1 = (Ok (), s2)
        /\ RequestLocalBindings.request_started (_bindings s2) t = true
        /\ bindings_of s2 t = bindings_of s1 t).
Proof.
  split.
  - intros _. destruct (end_effect s t) as (s1 & E1 & Ha1 & Hb1 & _).
    by exists s1.
  - destruct (start_effect s t) as (s1 & E1 & Ha1 & Hb1 & _).
    destruct (start_effect s1 t) as (s2 & E2 & Ha2 & Hb2 & _).
    by exists s1, s2.
Qed.

Lemma start_end_are_unguarded_witness :
  exists s1,
    RequestScope.end_ 0 idle_request_scope = (Ok (), s1)
    /\ bindings_of s1 0 = ∅
    /\ RequestLocalBindings.request_started (_bindings s1) 0 = false.
Proof.
  apply (start_end_are_unguarded idle_request_scope 0). reflexivity.
Defined.

(** * Further properties of the binding protocol *)

Section UnbindFacts.
Context {c : ScopeClass}.
Implicit Types (s : Scope c) (t : Tid) (k : Key) (v : Obj).

Lemma self_unbind_effect s t k :
  accepts s t = true ->
  exists s', Self.unbind t k s = (Ok (), s')
    /\ bindings_of s' t = delete k (bindings_of s t)
    /\ accepts s' t = true
    /\ _factories s' = _factories s
    /\ invoked s' = invoked s
    /\ logged s' = logged s ++
         (if Store.contains (_bindings s) t k then [Unbound k] else [])
    /\ (bindings_of s t !! k = None -> s' = s).
Proof.
  intros Hs. rewrite self_unbind_accepted by done.
  destruct (bindings_of s t !! k) as [w |] eqn:Hk.
  - destruct (abstract_unbind_present s t k w Hk)
      as (s' & -> & Hb & Ha & Hf & Hl & Hi).
    exists s'. rewrite (contains_Some _ _ _ _ Hk).
    repeat split; try done. by rewrite Ha.
  - rewrite abstract_unbind_absent by done.
    exists s. rewrite (contains_None _ _ _ Hk), app_nil_r.
    repeat split; try done. by rewrite delete_id.
Qed.

Lemma self_bind_factory_effect s t k f :
  callable f = true ->
  exists s', Self.bind_factory t k f s = (Ok (), s')
    /\ _factories s' = <[k := f]> (_factories s)
    /\ _bindings s' = _bindings s
    /\ invoked s' = invoked s
    /\ logged s' = logged s ++
         (if bool_decide (is_Some (_factories s !! k))
          then [UnboundFactory k] else []).
Proof.
  intros Hf. unfold Self.bind_factory, AbstractScope.bind_factory,
    AbstractScope.unbind_factory. step_method. rewrite Hf. simpl.
  destruct (bool_decide (is_Some (_factories s !! k))); simpl.
  - eexists. split; [done |]. simpl. by rewrite insert_delete_eq.
  - eexists. split; [done |]. simpl. by rewrite app_nil_r.
Qed.

Lemma self_unbind_factory_effect s t k :
  exists s', Self.unbind_factory t k s = (Ok (), s')
    /\ _factories s' = delete k (_factories s)
    /\ _bindings s' = _bindings s
    /\ invoked s' = invoked s
    /\ logged s' = logged s ++
         (if bool_decide (is_Some (_factories s !! k))
          then [UnboundFactory k] else [])
    /\ (_factories s !! k = None -> s' = s).
Proof.
  unfold Self.unbind_factory, AbstractScope.unbind_factory. step_method.
  destruct (bool_decide (is_Some (_factories s !! k))) eqn:Hd; simpl.
  - eexists. split; [done |]. repeat split; try done.
    intros Hk. apply bool_decide_eq_true_1 in Hd. rewrite Hk in Hd.
    by destruct Hd.
  - eexists. split; [done |]. simpl. rewrite app_nil_r.
    apply bool_decide_eq_false_1 in Hd.
    apply eq_None_not_Some in Hd. by rewrite delete_id.
Qed.
End UnbindFacts.

(** X1: on a scope that lets the calling thread through, [unbind(k)]
    returns; afterwards [k] is not bound, every other key of the thread
    and every factory is as before.  For a key that was not bound the
    call changes nothing and logs nothing; for a bound key it logs one
    [Unbound] record. *)
Theorem unbind_removes_only_that_binding
    {c} (s : Scope c) (t : Tid) (k : Key) :
  accepts s t = true ->
  exists s',
    Self.unbind t k s = (Ok (), s')
    /\ Self.is_bound t k s' = (Ok false, s')
    /\ (forall j, j <> k -> bindings_of s' t !! j = bindings_of s t !! j)
    /\ _factories s' = _factories s
    /\ (bindings_of s t !! k = None -> s' = s)
    /\ (is_Some (bindings_of s t !! k) ->
        logged s' = logged s ++ [Unbound k]).
Proof.
  intros Hs.
  destruct (self_unbind_effect s t k Hs)
    as (s' & E & Hb & Ha & Hf & Hi & Hl & Hid).
  exists s'. repeat split; try done.
  - rewrite is_bound_reads, Hb, lookup_delete_eq.
    rewrite bool_decide_eq_false_2; [done |]. by intros [? ?].
  - intros j Hj. rewrite Hb. by apply lookup_delete_ne.
  - intros [w Hw]. by rewrite Hl, (contains_Some _ _ _ _ Hw).
Qed.

Lemma unbind_removes_only_that_binding_witness :
  exists s',
    Self.unbind 0 "str" busy_request_scope = (Ok (), s')
    /\ Self.is_bound 0 "str" s' = (Ok false, s')
    /\ logged s' = logged busy_request_scope ++ [Unbound "str"].
Proof.
  destruct (unbind_removes_only_that_binding busy_request_scope 0 "str"
              eq_refl) as (s' & E & Hb & _ & _ & _ & Hl).
  exists s'. repeat split; [exact E | exact Hb |].
  apply Hl. by eexists.
Defined.

(** X2: [unbind(k)] resets the memoization: with a factory bound for [k]
    whose next call returns, the [get(k)] after [unbind(k)] invokes the
    factory again and binds and returns what that call produced. *)
Theorem unbind_resets_memoization
    {c} (s : Scope c) (t : Tid) (k : Key) (body : nat -> Outcome) (v : Obj) :
  accepts s t = true ->
  _factories s !! k = Some (PyCallable body) ->
  body (length (invoked s)) = Returns v ->
  exists s1 s2,
    Self.unbind t k s = (Ok (), s1)
    /\ Self.get t k s1 = (Ok v, s2)
    /\ invoked s2 = invoked s ++ [PyCallable body]
    /\ bindings_of s2 t !! k = Some v.
Proof.
  intros Hs Hf Hv.
  destruct (self_unbind_effect s t k Hs)
    as (s1 & E1 & Hb1 & Ha1 & Hf1 & Hi1 & _).
  assert (Hk1 : bindings_of s1 t !! k = None)
    by (rewrite Hb1; apply lookup_delete_eq).
  assert (Hfk1 : _factories s1 !! k = Some (PyCallable body))
    by (by rewrite Hf1).
  assert (Hv1 : body (length (invoked s1)) = Returns v) by (by rewrite Hi1).
  destruct (self_get_factory s1 t k body v Ha1 Hk1 Hfk1 Hv1)
    as (s2 & E2 & Hb2 & _ & _ & Hi2 & _).
  exists s1, s2. repeat split; try done.
  - by rewrite Hi2, Hi1.
  - rewrite Hb2. apply lookup_insert_eq.
Qed.

Lemma unbind_resets_memoization_witness :
  Self.get 0 "list" served_request_scope
  = (Ok (PyInstance "list" 0), served_request_scope)
  /\ exists s1 s2,
       Self.unbind 0 "list" served_request_scope = (Ok (), s1)
       /\ Self.get 0 "list" s1 = (Ok (PyInstance "list" 1), s2)
       /\ invoked s2 = invoked served_request_scope ++ [list_factory]
       /\ bindings_of s2 0 !! "list" = Some (PyInstance "list" 1).
Proof.
  split; [reflexivity |].
  apply (unbind_resets_memoization served_request_scope 0 "list"
           (fun n => Returns (PyInstance "list" n)) (PyInstance "list" 1));
    reflexivity.
Defined.

(** X3: [bind_factory(k, f)] with a callable [f] returns on every scope,
    a [RequestScope] without a started request included: afterwards [f]
    is the factory of [k], replacing any earlier one, the factories of
    the other keys are as before, and an [UnboundFactory] record is
    logged exactly when a factory was replaced. *)
Theorem bind_factory_registers
    {c} (s : Scope c) (t : Tid) (k : Key) (f : Obj) :
  callable f = true ->
  exists s',
    Self.bind_factory t k f s = (Ok (), s')
    /\ Self.is_factory_bound t k s' = (Ok true, s')
    /\ _factories s' !! k = Some f
    /\ (forall j, j <> k -> _factories s' !! j = _factories s !! j)
    /\ accepts s' t = accepts s t
    /\ logged s' = logged s ++
         (if bool_decide (is_Some (_factories s !! k))
          then [UnboundFactory k] else []).
Proof.
  intros Hf.
  destruct (self_bind_factory_effect s t k f Hf)
    as (s' & E & Hfs & Hb & Hi & Hl).
  assert (Hk : _factories s' !! k = Some f)
    by (rewrite Hfs; apply lookup_insert_eq).
  exists s'. repeat split; try done.
  - rewrite is_factory_bound_reads, Hk. by rewrite bool_decide_eq_true_2.
  - intros j Hj. rewrite Hfs. by apply lookup_insert_ne.
  - unfold accepts. by rewrite Hb.
Qed.

Lemma bind_factory_registers_witness :
  accepts idle_request_scope 0 = false
  /\ exists s',
       Self.bind_factory 0 "list" flaky_factory idle_request_scope
       = (Ok (), s')
       /\ _factories s' !! "list" = Some flaky_factory
       /\ logged s' = logged idle_request_scope ++ [UnboundFactory "list"].
Proof.
  split; [reflexivity |].
  destruct (bind_factory_registers idle_request_scope 0 "list" flaky_factory
              eq_refl) as (s' & E & _ & Hk & _ & _ & Hl).
  exists s'. repeat split; assumption.
Defined.

(** X4: registering or replacing a factory does not drop an instance
    that is already bound: with a direct binding for [k], after
    [bind_factory(k, f)] the next [get(k)] still returns the bound
    instance and does not invoke [f]. *)
Theorem bind_factory_keeps_bound_instance
    {c} (s : Scope c) (t : Tid) (k : Key) (f v : Obj) :
  accepts s t = true ->
  bindings_of s t !! k = Some v ->
  callable f = true ->
  exists s',
    Self.bind_factory t k f s = (Ok (), s')
    /\ _factories s' !! k = Some f
    /\ Self.get t k s' = (Ok v, s')
    /\ invoked s' = invoked s.
Proof.
  intros Hs Hk Hf.
  destruct (self_bind_factory_effect s t k f Hf)
    as (s' & E & Hfs & Hb & Hi & _).
  exists s'. repeat split; try done.
  - rewrite Hfs. apply lookup_insert_eq.
  - apply self_get_bound; unfold accepts, bindings_of; by rewrite Hb.
Qed.

Lemma bind_factory_keeps_bound_instance_witness :
  exists s',
    Self.bind_factory 0 "list" flaky_factory served_request_scope
    = (Ok (), s')
    /\ _factories s' !! "list" = Some flaky_factory
    /\ Self.get 0 "list" s' = (Ok (PyInstance "list" 0), s')
    /\ invoked s' = invoked served_request_scope.
Proof.
  apply (bind_factory_keeps_bound_instance served_request_scope 0 "list"
           flaky_factory (PyInstance "list" 0));
    reflexivity.
Defined.

(** X5: [unbind_factory(k)] returns on every scope and removes the
    factory of [k] only; it changes nothing when no factory was bound.
    An instance already bound for [k] stays: [get(k)] keeps returning it,
    while an unbound [k] now resolves to [None]. *)
Theorem unbind_factory_removes_only_the_factory
    {c} (s : Scope c) (t : Tid) (k : Key) :
  exists s',
    Self.unbind_factory t k s = (Ok (), s')
    /\ Self.is_factory_bound t k s' = (Ok false, s')
    /\ (forall j, j <> k -> _factories s' !! j = _factories s !! j)
    /\ _bindings s' = _bindings s
    /\ (_factories s !! k = None -> s' = s)
    /\ (accepts s t = true ->
        (forall v, bindings_of s t !! k = Some v ->
                   Self.get t k s' = (Ok v, s'))
        /\ (bindings_of s t !! k = None ->
            Self.get t k s' = (Ok PyNone, s'))).
Proof.
  destruct (self_unbind_factory_effect s t k)
    as (s' & E & Hfs & Hb & Hi & Hl & Hid).
  assert (Hk : _factories s' !! k = None)
    by (rewrite Hfs; apply lookup_delete_eq).
  exists s'. repeat split; try done.
  - rewrite is_factory_bound_reads, Hk.
    rewrite bool_decide_eq_false_2; [done |]. by intros [? ?].
  - intros j Hj. rewrite Hfs. by apply lookup_delete_ne.
  - intros v Hv.
    apply self_get_bound; unfold accepts, bindings_of in *; by rewrite Hb.
  - intros Hv.
    apply self_get_absent; unfold accepts, bindings_of in *;
      by rewrite ?Hb.
Qed.

Lemma unbind_factory_removes_only_the_factory_witness :
  exists s',
    Self.unbind_factory 0 "list" served_request_scope = (Ok (), s')
    /\ Self.is_factory_bound 0 "list" s' = (Ok false, s')
    /\ Self.get 0 "list" s' = (Ok (PyInstance "list" 0), s').
Proof.
  destruct (unbind_factory_removes_only_the_factory
              served_request_scope 0 "list")
    as (s' & E & Hfb & _ & _ & _ & Hget).
  destruct (Hget eq_refl) as (Hbound & _).
  exists s'. repeat split; [exact E | exact Hfb |].
  apply (Hbound (PyInstance "list" 0)). reflexivity.
Defined.

(** X6: when the factory of [k] raises, [get(k)] propagates the
    exception, the call is on record and nothing is bound for [k]; so the
    next [get(k)] invokes the factory again, and if that call returns its
    result is bound and returned. *)
Theorem get_propagates_factory_error
    {c} (s : Scope c) (t : Tid) (k : Key) (body : nat -> Outcome)
    (e : Exc) :
  accepts s t = true ->
  bindings_of s t !! k = None ->
  _factories s !! k = Some (PyCallable body) ->
  body (length (invoked s)) = Throws e ->
  exists s',
    Self.get t k s = (Err e, s')
    /\ invoked s' = invoked s ++ [PyCallable body]
    /\ _bindings s' = _bindings s
    /\ _factories s' = _factories s
    /\ logged s' = logged s
    /\ Self.is_bound t k s' = (Ok false, s')
    /\ forall v,
         body (S (length (invoked s))) = Returns v ->
         exists s'',
           Self.get t k s' = (Ok v, s'')
           /\ invoked s'' = invoked s ++ [PyCallable body; PyCallable body]
           /\ bindings_of s'' t !! k = Some v.
Proof.
  intros Hs Hk Hf Hv.
  rewrite self_get_accepted by done.
  rewrite (abstract_get_factory _ _ _ _ _ Hk Hf).
  unfold invoke. rewrite Hv.
  set (s' := MkScope _ _ _ (invoked s ++ [PyCallable body])).
  exists s'. repeat split; try done.
  - rewrite is_bound_reads.
    change (bindings_of s' t) with (bindings_of s t). rewrite Hk.
    rewrite bool_decide_eq_false_2; [done |]. by intros [? ?].
  - intros v Hv'.
    assert (Hv2 : body (length (invoked s')) = Returns v).
    { simpl. rewrite length_app. simpl. by rewrite Nat.add_1_r. }
    destruct (self_get_factory s' t k body v Hs Hk Hf Hv2)
      as (s'' & E & Hb & _ & _ & Hi & _).
    exists s''. repeat split; try done.
    + rewrite Hi. simpl. by rewrite <- app_assoc.
    + rewrite Hb. apply lookup_insert_eq.
Qed.

Lemma get_propagates_factory_error_witness :
  exists s' s'',
    Self.get 0 "int" thread_scope_with_flaky_factory
    = (Err (Raised "IOError"), s')
    /\ Self.is_bound 0 "int" s' = (Ok false, s')
    /\ Self.get 0 "int" s' = (Ok (PyInt 7), s'')
    /\ invoked s'' = [flaky_factory; flaky_factory].
Proof.
  destruct (get_propagates_factory_error thread_scope_with_flaky_factory
              0 "int"
              (fun n => match n with
                        | O => Throws (Raised "IOError")
                        | S _ => Returns (PyInt 7)
                        end)
              (Raised "IOError") eq_refl eq_refl eq_refl eq_refl)
    as (s' & E & _ & _ & _ & _ & Hb & Hnext).
  destruct (Hnext (PyInt 7) eq_refl) as (s'' & E' & Hi & _).
  exists s', s''. repeat split; assumption.
Defined.

(** * Threads *)

Section StoreIsolation.
Context {c : ScopeClass}.
Implicit Types (b : Bindings c) (t : Tid) (k : Key) (v : Obj).

Lemma setitem_other b t t' k v :
  c <> ApplicationScope -> t' <> t ->
  Store.view (Store.setitem b t k v) t' = Store.view b t'
  /\ Store.started (Store.setitem b t k v) t' = Store.started b t'.
Proof.
  intros Hc Ht. destruct c; [done | |]; simpl;
    unfold ThreadLocalBindings.__setitem__,
      RequestLocalBindings.request_started;
    by rewrite this_set_data_other.
Qed.

Lemma delitem_other b b' t t' k :
  c <> ApplicationScope -> t' <> t ->
  Store.delitem b t k = Ok b' ->
  Store.view b' t' = Store.view b t'
  /\ Store.started b' t' = Store.started b t'.
Proof.
  intros Hc Ht. destruct c; [done | |]; simpl;
    unfold ThreadLocalBindings.__delitem__,
      RequestLocalBindings.request_started;
    (destruct (_data _ !! k); [| done]);
    intros [= <-]; by rewrite this_set_data_other.
Qed.
End StoreIsolation.

Lemma other_threads_kept_refl {c} (t : Tid) (s : Scope c) : other_threads_kept t s s.
Proof. by intros t' _. Qed.

Lemma other_threads_kept_trans {c} (t : Tid) (s1 s2 s3 : Scope c) :
  other_threads_kept t s1 s2 -> other_threads_kept t s2 s3 ->
  other_threads_kept t s1 s3.
Proof.
  intros H12 H23 t' Ht'.
  destruct (H12 t' Ht') as [Hb12 Ha12].
  destruct (H23 t' Ht') as [Hb23 Ha23].
  split; congruence.
Qed.

Lemma other_threads_kept_bindings {c} (t : Tid) (s s' : Scope c) :
  _bindings s' = _bindings s -> other_threads_kept t s s'.
Proof. intros Hb t' _. unfold bindings_of, accepts. by rewrite Hb. Qed.

Lemma self_unbind_other {c} (s : Scope c) (t : Tid) (k : Key) :
  c <> ApplicationScope ->
  other_threads_kept t s (snd (Self.unbind t k s)).
Proof.
  intros Hc. destruct (accepts s t) eqn:Hs.
  - rewrite self_unbind_accepted by done.
    unfold AbstractScope.unbind. step_method.
    destruct (Store.contains (_bindings s) t k) eqn:Hk;
      [| apply other_threads_kept_refl].
    apply contains_true in Hk as [w Hw].
    destruct (delitem_Some _ _ _ _ Hw) as (b' & Hd & _).
    rewrite Hd. simpl. intros t' Ht'. unfold bindings_of, accepts; simpl.
    by apply (delitem_other _ _ t t' k).
  - destruct c; [done | done |]. simpl. rewrite self_unbind_refused by done.
    apply other_threads_kept_refl.
Qed.

(** The store a completed [bind] leaves: the new item set in the old
    store, or in the old store without the item it overrides. *)
Lemma self_bind_store {c} (s : Scope c) (t : Tid) (k : Key) (v : Obj) :
  accepts s t = true ->
  exists b1,
    _bindings (snd (Self.bind t k v s)) = Store.setitem b1 t k v
    /\ (b1 = _bindings s \/ Store.delitem (_bindings s) t k = Ok b1).
Proof.
  intros Hs. rewrite self_bind_accepted by done.
  unfold AbstractScope.bind, AbstractScope.is_bound. step_method.
  destruct (Store.contains (_bindings s) t k) eqn:Hk.
  - apply contains_true in Hk as [w Hw].
    set (s1 := MkScope _ _ (logged s ++ [Overriding k]) _).
    assert (Hs1 : accepts s1 t = true) by done.
    rewrite (self_unbind_accepted s1 t k Hs1).
    unfold AbstractScope.unbind. step_method.
    rewrite (contains_Some _ _ _ _ Hw).
    destruct (delitem_Some _ _ _ _ Hw) as (b' & Hd & _).
    rewrite Hd. simpl. exists b'. split; [done | by right].
  - simpl. exists (_bindings s). split; [done | by left].
Qed.

Lemma self_bind_other {c} (s : Scope c) (t : Tid) (k : Key) (v : Obj) :
  c <> ApplicationScope ->
  other_threads_kept t s (snd (Self.bind t k v s)).
Proof.
  intros Hc. destruct (accepts s t) eqn:Hs.
  - destruct (self_bind_store s t k v Hs) as (b1 & Hb & Hb1).
    intros t' Ht'. unfold bindings_of, accepts. rewrite Hb.
    destruct (setitem_other b1 t t' k v Hc Ht') as [-> ->].
    destruct Hb1 as [-> | Hd]; [done |].
    by apply (delitem_other _ _ t t' k).
  - destruct c; [done | done |]. simpl. rewrite self_bind_refused by done.
    apply other_threads_kept_refl.
Qed.

Lemma self_get_other {c} (s : Scope c) (t : Tid) (k : Key) :
  c <> ApplicationScope ->
  other_threads_kept t s (snd (Self.get t k s)).
Proof.
  intros Hc. destruct (accepts s t) eqn:Hs.
  - rewrite self_get_accepted by done.
    destruct (bindings_of s t !! k) as [v |] eqn:Hk.
    { rewrite (abstract_get_bound _ _ _ _ _ Hk).
      apply other_threads_kept_refl. }
    destruct (_factories s !! k) as [f |] eqn:Hf.
    2: { rewrite (abstract_get_absent _ _ _ _ Hk Hf).
         apply other_threads_kept_refl. }
    rewrite (abstract_get_factory _ _ _ _ _ Hk Hf).
    pose proof (invoke_bindings f s) as Hb.
    destruct (invoke f s) as [[inst | e] s1]; simpl in Hb.
    2: { by apply other_threads_kept_bindings. }
    pose proof (self_bind_other s1 t k inst Hc) as Hbind.
    apply (other_threads_kept_trans t s s1);
      [by apply other_threads_kept_bindings |].
    by destruct (Self.bind t k inst s1) as [[[] | e] s2].
  - destruct c; [done | done |]. simpl. rewrite self_get_refused by done.
    apply other_threads_kept_refl.
Qed.

Lemma perform_other {c} (s : Scope c) (t : Tid) (call : Call) :
  c <> ApplicationScope ->
  other_threads_kept t s (perform t call s).
Proof.
  intros Hc. destruct call as [k v | k | k | k f | k | k | k | |].
  - by apply self_bind_other.
  - by apply self_unbind_other.
  - apply other_threads_kept_refl.
  - apply other_threads_kept_bindings, self_bind_factory_bindings.
  - apply other_threads_kept_bindings, self_unbind_factory_bindings.
  - apply other_threads_kept_refl.
  - by apply self_get_other.
  - destruct c; [done | apply other_threads_kept_refl |].
    destruct (start_effect s t) as (s1 & E & _ & _ & _ & _ & _ & Ho).
    unfold perform. rewrite E. intros t' Ht'. by apply Ho.
  - destruct c; [done | apply other_threads_kept_refl |].
    destruct (end_effect s t) as (s1 & E & _ & _ & _ & _ & _ & Ho).
    unfold perform. rewrite E. intros t' Ht'. by apply Ho.
Qed.

(** X7: in a [ThreadScope] or [RequestScope], whatever the other threads
    call, in any number and order and whether the calls return or raise,
    a thread keeps seeing the bindings it had and keeps its request
    state. *)
Theorem threads_are_isolated
    {c} (s : Scope c) (t : Tid) (calls : list (Tid * Call)) :
  c <> ApplicationScope ->
  Forall (fun tc => fst tc <> t) calls ->
  bindings_of (history calls s) t = bindings_of s t
  /\ accepts (history calls s) t = accepts s t.
Proof.
  intros Hc Hcalls. revert s.
  induction Hcalls as [| [t0 call] rest Ht0 _ IH]; intros s; [done |].
  simpl in *. destruct (IH (perform t0 call s)) as [-> ->].
  apply (perform_other s t0 call Hc). by apply not_eq_sym.
Qed.

Lemma threads_are_isolated_witness :
  bindings_of
    (history [(1, Call_start); (1, Call_bind "str" (PyStr "z"));
              (1, Call_get "list"); (2, Call_end); (1, Call_end)]
       busy_request_scope) 0
  = bindings_of busy_request_scope 0
  /\ accepts
       (history [(1, Call_start); (1, Call_bind "str" (PyStr "z"));
                 (1, Call_get "list"); (2, Call_end); (1, Call_end)]
          busy_request_scope) 0
     = accepts busy_request_scope 0.
Proof.
  apply (threads_are_isolated busy_request_scope 0); [discriminate |].
  repeat constructor; discriminate.
Defined.

(** X8: an [ApplicationScope] is shared by all threads: what one thread
    binds every thread gets, and a factory resolved by one thread is not
    invoked again for another, which gets the same instance. *)
Theorem application_scope_is_shared
    (s : Scope ApplicationScope) (t t' : Tid) (k : Key) (v : Obj) :
  (exists s',
     Self.bind t k v s = (Ok (), s')
     /\ Self.get t' k s' = (Ok v, s')
     /\ Self.is_bound t' k s' = (Ok true, s'))
  /\ forall body,
       bindings_of s t !! k = None ->
       _factories s !! k = Some (PyCallable body) ->
       body (length (invoked s)) = Returns v ->
       exists s',
         Self.get t k s = (Ok v, s')
         /\ Self.get t' k s' = (Ok v, s')
         /\ invoked s' = invoked s ++ [PyCallable body].
Proof.
  split.
  - destruct (self_bind_effect s t k v eq_refl) as (s' & E & Hb & _).
    assert (Hk : bindings_of s' t' !! k = Some v).
    { change (bindings_of s' t') with (bindings_of s' t).
      rewrite Hb. apply lookup_insert_eq. }
    exists s'. repeat split; [done | by apply self_get_bound |].
    rewrite is_bound_reads, Hk. by rewrite bool_decide_eq_true_2.
  - intros body Hk Hf Hv.
    destruct (self_get_factory s t k body v eq_refl Hk Hf Hv)
      as (s' & E & Hb & _ & _ & Hi & _).
    exists s'. repeat split; [done | | done].
    apply self_get_bound; [done |].
    change (bindings_of s' t') with (bindings_of s' t).
    rewrite Hb. apply lookup_insert_eq.
Qed.

Lemma application_scope_is_shared_witness :
  exists s',
    Self.get 0 "list"
      (snd (Self.bind_factory 0 "list" list_factory
              (snd (ApplicationScope.__init__ 0
                      (PyInstance "ApplicationScope" 0)))))
    = (Ok (PyInstance "list" 0), s')
    /\ Self.get 1 "list" s' = (Ok (PyInstance "list" 0), s').
Proof.
  destruct (application_scope_is_shared
              (snd (Self.bind_factory 0 "list" list_factory
                      (snd (ApplicationScope.__init__ 0
                              (PyInstance "ApplicationScope" 0)))))
              0 1 "list" (PyInstance "list" 0)) as (_ & Hfactory).
  destruct (Hfactory (fun n => Returns (PyInstance "list" n))
              eq_refl eq_refl eq_refl) as (s' & E & E' & _).
  exists s'. split; assumption.
Defined.

(** X9: in a [ThreadScope] or [RequestScope] the factory map is shared
    but the instances are per thread: after one thread has resolved the
    factory of [k], another thread's first [get(k)] invokes the factory
    again and keeps its own result, and each thread goes on getting its
    own instance. *)
Theorem factory_instance_per_thread
    {c} (s : Scope c) (t t' : Tid) (k : Key) (body : nat -> Outcome)
    (v v' : Obj) :
  c <> ApplicationScope ->
  t' <> t ->
  accepts s t = true ->
  accepts s t' = true ->
  bindings_of s t !! k = None ->
  bindings_of s t' !! k = None ->
  _factories s !! k = Some (PyCallable body) ->
  body (length (invoked s)) = Returns v ->
  body (S (length (invoked s))) = Returns v' ->
  exists s1 s2,
    Self.get t k s = (Ok v, s1)
    /\ Self.get t' k s1 = (Ok v', s2)
    /\ invoked s2 = invoked s ++ [PyCallable body; PyCallable body]
    /\ Self.get t k s2 = (Ok v, s2)
    /\ Self.get t' k s2 = (Ok v', s2).
Proof.
  intros Hc Ht Hs Hs' Hk Hk' Hf Hv Hv'.
  destruct (self_get_factory s t k body v Hs Hk Hf Hv)
    as (s1 & E1 & Hb1 & Ha1 & Hf1 & Hi1 & _).
  pose proof (self_get_other s t k Hc t' Ht) as Ho1.
  rewrite E1 in Ho1. simpl in Ho1. destruct Ho1 as [Hb1' Ha1'].
  assert (Hv1 : body (length (invoked s1)) = Returns v').
  { rewrite Hi1, length_app. simpl. by rewrite Nat.add_1_r. }
  assert (Hs1' : accepts s1 t' = true) by congruence.
  assert (Hk1' : bindings_of s1 t' !! k = None) by (by rewrite Hb1').
  assert (Hf1k : _factories s1 !! k = Some (PyCallable body))
    by (by rewrite Hf1).
  destruct (self_get_factory s1 t' k body v' Hs1' Hk1' Hf1k Hv1)
    as (s2 & E2 & Hb2 & Ha2 & _ & Hi2 & _).
  pose proof (self_get_other s1 t' k Hc t (not_eq_sym Ht)) as Ho2.
  rewrite E2 in Ho2. simpl in Ho2. destruct Ho2 as [Hb2' Ha2'].
  exists s1, s2. repeat split; try done.
  - rewrite Hi2, Hi1. by rewrite <- app_assoc.
  - apply self_get_bound; [congruence |].
    rewrite Hb2', Hb1. apply lookup_insert_eq.
  - apply self_get_bound; [done |]. rewrite Hb2. apply lookup_insert_eq.
Qed.

Lemma factory_instance_per_thread_witness :
  exists s1 s2,
    Self.get 0 "list" thread_scope_with_factory
    = (Ok (PyInstance "list" 0), s1)
    /\ Self.get 1 "list" s1 = (Ok (PyInstance "list" 1), s2)
    /\ invoked s2
       = invoked thread_scope_with_factory ++ [list_factory; list_factory]
    /\ Self.get 0 "list" s2 = (Ok (PyInstance "list" 0), s2)
    /\ Self.get 1 "list" s2 = (Ok (PyInstance "list" 1), s2).
Proof.
  apply (factory_instance_per_thread thread_scope_with_factory 0 1 "list"
           (fun n => Returns (PyInstance "list" n)));
    (reflexivity || discriminate).
Defined.

(** X10: the constructor of [ApplicationScope] returns a scope in which
    every thread resolves the key [ApplicationScope] to the scope
    instance itself; nothing else is bound, no factory is registered and
    one [Bound] record has been logged. *)
Theorem application_scope_binds_itself (t t' : Tid) (self : Obj) :
  exists s,
    ApplicationScope.__init__ t self = (Ok (), s)
    /\ Self.get t' "ApplicationScope" s = (Ok self, s)
    /\ Self.is_bound t' "ApplicationScope" s = (Ok true, s)
    /\ (forall k, k <> "ApplicationScope" ->
          Self.is_bound t' k s = (Ok false, s)
          /\ Self.get t' k s = (Ok PyNone, s))
    /\ _factories s = ∅
    /\ logged s = [Bound "ApplicationScope" self].
Proof.
  exists (snd (ApplicationScope.__init__ t self)).
  split; [reflexivity |].
  split; [reflexivity |]. split; [reflexivity |].
  split; [| by split].
  intros k Hk.
  assert (Hnone : bindings_of (snd (ApplicationScope.__init__ t self)) t' !! k
                  = None).
  { change (bindings_of (snd (ApplicationScope.__init__ t self)) t')
      with (<["ApplicationScope" := self]> (∅ : dict)).
    by rewrite lookup_insert_ne. }
  split.
  - rewrite is_bound_reads, Hnone.
    rewrite bool_decide_eq_false_2; [done |]. by intros [? ?].
  - by apply self_get_absent.
Qed.

Lemma application_scope_binds_itself_witness :
  exists s,
    ApplicationScope.__init__ 0 (PyInstance "ApplicationScope" 0) = (Ok (), s)
    /\ Self.get 1 "ApplicationScope" s
       = (Ok (PyInstance "ApplicationScope" 0), s)
    /\ Self.is_bound 1 "int" s = (Ok false, s)
    /\ Self.get 1 "int" s = (Ok PyNone, s).
Proof.
  destruct (application_scope_binds_itself 0 1
              (PyInstance "ApplicationScope" 0))
    as (s & E & Hself & _ & Hother & _).
  destruct (Hother "int") as (Hbound & Hget); [discriminate |].
  exists s. repeat split; assumption.
Defined.

(** * What the methods raise and invoke *)

Lemma invoke_factories {c} (f : Obj) (s : Scope c) :
  _factories (snd (invoke f s)) = _factories s.
Proof.
  unfold invoke. destruct f as [| | | | body]; try done.
  by destruct (body (length (invoked s))).
Qed.

Lemma self_bind_invoked {c} (s : Scope c) (t : Tid) (k : Key) (v : Obj) :
  invoked (snd (Self.bind t k v s)) = invoked s.
Proof.
  destruct (accepts s t) eqn:Hs.
  - by destruct (self_bind_effect s t k v Hs)
      as (s' & -> & _ & _ & _ & Hi & _).
  - destruct c; [done | done |]. simpl. by rewrite self_bind_refused.
Qed.

Lemma self_unbind_invoked {c} (s : Scope c) (t : Tid) (k : Key) :
  invoked (snd (Self.unbind t k s)) = invoked s.
Proof.
  destruct (accepts s t) eqn:Hs.
  - by destruct (self_unbind_effect s t k Hs)
      as (s' & -> & _ & _ & _ & Hi & _).
  - destruct c; [done | done |]. simpl. by rewrite self_unbind_refused.
Qed.

Lemma self_bind_factory_invoked {c} (s : Scope c) (t : Tid) (k : Key)
    (f : Obj) :
  invoked (snd (Self.bind_factory t k f s)) = invoked s.
Proof.
  unfold Self.bind_factory, AbstractScope.bind_factory,
    AbstractScope.unbind_factory.
  step_method. destruct (callable f); simpl; [| done].
  by destruct (bool_decide (is_Some (_factories s !! k))).
Qed.

(** X11: the exceptions of the scope methods.  [bind] and [unbind] raise
    nothing but [NoRequestError], and only where the guard is closed, so
    never [KeyError]: the deletion is behind a membership test.
    [bind_factory] raises nothing but [FactoryNotCallable] of a
    non-callable argument; [unbind_factory], [is_bound] and
    [is_factory_bound] never raise.  [get] raises [NoRequestError] where
    the guard is closed; past the guard it raises only in the factory
    branch: what the call of the factory raised, whatever that is, or
    [TypeError] when the object stored as factory is not callable. *)
Theorem exceptions_of_the_methods
    {c} (s : Scope c) (t : Tid) (k : Key) (v : Obj) (e : Exc) :
  (fst (Self.bind t k v s) = Err e ->
   e = NoRequestError /\ accepts s t = false)
  /\ (fst (Self.unbind t k s) = Err e ->
      e = NoRequestError /\ accepts s t = false)
  /\ (fst (Self.bind_factory t k v s) = Err e ->
      e = FactoryNotCallable v /\ callable v = false)
  /\ fst (Self.unbind_factory t k s) = Ok ()
  /\ (exists b, fst (Self.is_bound t k s) = Ok b)
  /\ (exists b, fst (Self.is_factory_bound t k s) = Ok b)
  /\ (fst (Self.get t k s) = Err e ->
      (e = NoRequestError /\ accepts s t = false)
      \/ (accepts s t = true /\ bindings_of s t !! k = None
          /\ exists body,
               _factories s !! k = Some (PyCallable body)
               /\ body (length (invoked s)) = Throws e)
      \/ (e = TypeError /\ accepts s t = true
          /\ bindings_of s t !! k = None
          /\ exists f, _factories s !! k = Some f /\ callable f = false)).
Proof.
  split; [| split; [| split; [| split; [| split; [| split]]]]].
  - destruct (accepts s t) eqn:Hs.
    + destruct (self_bind_effect s t k v Hs) as (s' & E & _).
      by rewrite E.
    + destruct c; [done | done |]. simpl.
      rewrite self_bind_refused by done. by intros [= <-].
  - destruct (accepts s t) eqn:Hs.
    + destruct (self_unbind_effect s t k Hs) as (s' & E & _).
      by rewrite E.
    + destruct c; [done | done |]. simpl.
      rewrite self_unbind_refused by done. by intros [= <-].
  - destruct (callable v) eqn:Hv.
    + destruct (self_bind_factory_effect s t k v Hv) as (s' & E & _).
      by rewrite E.
    + unfold Self.bind_factory, AbstractScope.bind_factory. step_method.
      rewrite Hv. simpl. by intros [= <-].
  - destruct (self_unbind_factory_effect s t k) as (s' & E & _).
    by rewrite E.
  - rewrite is_bound_reads. by eexists.
  - rewrite is_factory_bound_reads. by eexists.
  - destruct (self_get_cases s t k)
      as [(Hs & E) | [(Hs & w & _ & E) | [(Hs & _ & _ & E) |
          [(Hs & Hk & f & Hf & Hcall & E) |
           [(Hs & Hk & body & e' & s' & Hf & Hv & E & _) |
            (Hs & _ & body & w & s' & _ & _ & E & _)]]]]];
      rewrite E; simpl; try done.
    + intros [= <-]. by left.
    + intros [= <-]. right. right. repeat split; try done. by exists f.
    + intros [= <-]. right. left. repeat split; try done. by exists body.
Qed.

Lemma exceptions_of_the_methods_witness :
  (NoRequestError = NoRequestError /\ accepts idle_request_scope 0 = false)
  /\ (FactoryNotCallable (PyInt 3) = FactoryNotCallable (PyInt 3)
      /\ callable (PyInt 3) = false)
  /\ ((NoRequestError = NoRequestError
       /\ accepts refusing_request_scope 0 = false)
      \/ (accepts refusing_request_scope 0 = true
          /\ bindings_of refusing_request_scope 0 !! "int" = None
          /\ exists body,
               _factories refusing_request_scope !! "int"
               = Some (PyCallable body)
               /\ body (length (invoked refusing_request_scope))
                  = Throws NoRequestError)
      \/ (NoRequestError = TypeError
          /\ accepts refusing_request_scope 0 = true
          /\ bindings_of refusing_request_scope 0 !! "int" = None
          /\ exists f,
               _factories refusing_request_scope !! "int" = Some f
               /\ callable f = false)).
Proof.
  split; [| split].
  - apply (exceptions_of_the_methods idle_request_scope 0 "str" (PyStr "x")
             NoRequestError).
    reflexivity.
  - apply (proj1 (proj2 (proj2
             (exceptions_of_the_methods idle_request_scope 0 "str" (PyInt 3)
                (FactoryNotCallable (PyInt 3)))))).
    reflexivity.
  - apply (proj2 (proj2 (proj2 (proj2 (proj2 (proj2
             (exceptions_of_the_methods refusing_request_scope 0 "int"
                PyNone NoRequestError))))))).
    reflexivity.
Defined.

(** X12: no method but [get] invokes anything, and one [get(k)] invokes
    at most the factory registered for [k], once, and only when the
    calling thread has no binding for [k]. *)
Theorem only_get_invokes {c} (s : Scope c) (t : Tid) (call : Call) :
  match call with
  | Call_get k =>
      invoked (perform t call s) = invoked s
      \/ exists f,
           _factories s !! k = Some f
           /\ bindings_of s t !! k = None
           /\ invoked (perform t call s) = invoked s ++ [f]
  | _ => invoked (perform t call s) = invoked s
  end.
Proof.
  destruct call as [k v | k | k | k f | k | k | k | |].
  - apply self_bind_invoked.
  - apply self_unbind_invoked.
  - done.
  - apply self_bind_factory_invoked.
  - by destruct (self_unbind_factory_effect s t k)
      as (s' & E & _ & _ & Hi & _); unfold perform; rewrite E.
  - done.
  - unfold perform.
    destruct (self_get_cases s t k)
      as [(Hs & E) | [(Hs & w & _ & E) | [(Hs & _ & _ & E) |
          [(Hs & _ & f & Hf & Hcall & E) |
           [(Hs & Hk & body & e & s' & Hf & _ & E & _ & _ & Hi) |
            (Hs & Hk & body & w & s' & Hf & _ & E & _ & _ & _ & Hi)]]]]];
      rewrite E; simpl; try (by left).
    + right. by exists (PyCallable body).
    + right. by exists (PyCallable body).
  - destruct c; [done | done |].
    by destruct (start_effect s t) as (s1 & E & _ & _ & _ & Hi & _);
      unfold perform; rewrite E.
  - destruct c; [done | done |].
    by destruct (end_effect s t) as (s1 & E & _ & _ & _ & Hi & _);
      unfold perform; rewrite E.
Qed.

(** * Invariants of the reachable scopes *)

Lemma self_get_accepts {c} (s : Scope c) (t : Tid) (k : Key) :
  accepts (snd (Self.get t k s)) t = accepts s t.
Proof.
  destruct (self_get_cases s t k)
    as [(Hs & E) | [(Hs & w & _ & E) | [(Hs & _ & _ & E) |
        [(Hs & _ & f & Hf & Hcall & E) |
         [(Hs & Hk & body & e & s' & Hf & _ & E & Hb & _) |
          (Hs & Hk & body & w & s' & Hf & _ & E & _ & Ha & _)]]]]];
    rewrite E; simpl; try done.
  - unfold accepts. by rewrite Hb.
  - by rewrite Ha, Hs.
Qed.

Lemma self_get_factories {c} (s : Scope c) (t : Tid) (k : Key) :
  _factories (snd (Self.get t k s)) = _factories s.
Proof.
  by destruct (self_get_cases s t k)
    as [(Hs & E) | [(Hs & w & _ & E) | [(Hs & _ & _ & E) |
        [(Hs & _ & f & Hf & Hcall & E) |
         [(Hs & Hk & body & e & s' & Hf & _ & E & _ & Hfs & _) |
          (Hs & Hk & body & w & s' & Hf & _ & E & _ & _ & Hfs & _)]]]]];
    rewrite E.
Qed.

Lemma init_idle_is_empty : idle_is_empty RequestScope.__init__.
Proof. by intros t _. Qed.

Lemma perform_idle_is_empty (s : Scope RequestScope) (t : Tid) (call : Call) :
  idle_is_empty s -> idle_is_empty (perform t call s).
Proof.
  intros Hinv t' Hidle. destruct (decide (t' = t)) as [-> | Hne].
  2: { assert (Hc : RequestScope <> ApplicationScope) by done.
       destruct (perform_other s t call Hc t' Hne) as [Hb Ha].
       rewrite Hb. apply Hinv.
       change (accepts s t' = false). by rewrite <- Ha. }
  change (accepts (perform t call s) t = false) in Hidle.
  assert (Hrefused : accepts s t = false -> bindings_of s t = ∅)
    by (intros Hs; by apply Hinv).
  destruct call as [k v | k | k | k f | k | k | k | |];
    unfold perform in *.
  - destruct (accepts s t) eqn:Hs.
    + destruct (self_bind_effect s t k v Hs) as (s' & E & _ & Ha & _).
      rewrite E in Hidle. simpl snd in Hidle. congruence.
    + change (@Self.bind RequestScope) with RequestScope.bind.
      rewrite self_bind_refused by done. by apply Hrefused.
  - destruct (accepts s t) eqn:Hs.
    + destruct (self_unbind_effect s t k Hs) as (s' & E & _ & Ha & _).
      rewrite E in Hidle. simpl snd in Hidle. congruence.
    + change (@Self.unbind RequestScope) with RequestScope.unbind.
      rewrite self_unbind_refused by done. by apply Hrefused.
  - by apply Hrefused.
  - unfold accepts in Hidle. rewrite self_bind_factory_bindings in Hidle.
    unfold bindings_of. rewrite self_bind_factory_bindings.
    by apply Hrefused.
  - unfold accepts in Hidle. rewrite self_unbind_factory_bindings in Hidle.
    unfold bindings_of. rewrite self_unbind_factory_bindings.
    by apply Hrefused.
  - by apply Hrefused.
  - rewrite self_get_accepts in Hidle.
    change (@Self.get RequestScope) with RequestScope.get.
    rewrite self_get_refused by done. by apply Hrefused.
  - destruct (start_effect s t) as (s1 & E & Ha & _).
    rewrite E in Hidle. simpl snd in Hidle. congruence.
  - destruct (end_effect s t) as (s1 & E & _ & Hb & _).
    by rewrite E.
Qed.

Lemma history_idle_is_empty (calls : list (Tid * Call))
    (s : Scope RequestScope) :
  idle_is_empty s -> idle_is_empty (history calls s).
Proof.
  revert s. induction calls as [| [t call] rest IH]; intros s Hinv; [done |].
  simpl. by apply IH, perform_idle_is_empty.
Qed.

(** X13: in every [RequestScope] reached from a new one by calls of its
    methods, a thread without a started request holds no bindings: the
    probes that may be made outside a request find nothing bound. *)
Theorem idle_thread_has_no_bindings
    (calls : list (Tid * Call)) (t : Tid) (k : Key) :
  RequestLocalBindings.request_started
    (_bindings (history calls RequestScope.__init__)) t = false ->
  bindings_of (history calls RequestScope.__init__) t = ∅
  /\ Self.is_bound t k (history calls RequestScope.__init__)
     = (Ok false, history calls RequestScope.__init__).
Proof.
  intros Hidle.
  pose proof (history_idle_is_empty calls _ init_idle_is_empty t Hidle) as Hb.
  split; [done |]. rewrite is_bound_reads, Hb, lookup_empty.
  rewrite bool_decide_eq_false_2; [done |]. by intros [? ?].
Qed.

Lemma idle_thread_has_no_bindings_witness :
  bindings_of
    (history [(0, Call_start); (0, Call_bind "str" (PyStr "x"));
              (1, Call_bind "str" (PyStr "y")); (0, Call_end)]
       RequestScope.__init__) 0 = ∅
  /\ Self.is_bound 0 "str"
       (history [(0, Call_start); (0, Call_bind "str" (PyStr "x"));
                 (1, Call_bind "str" (PyStr "y")); (0, Call_end)]
          RequestScope.__init__)
     = (Ok false,
        history [(0, Call_start); (0, Call_bind "str" (PyStr "x"));
                 (1, Call_bind "str" (PyStr "y")); (0, Call_end)]
          RequestScope.__init__).
Proof.
  apply (idle_thread_has_no_bindings
           [(0, Call_start); (0, Call_bind "str" (PyStr "x"));
            (1, Call_bind "str" (PyStr "y")); (0, Call_end)] 0 "str").
  reflexivity.
Defined.

Lemma perform_callable_factories {c} (s : Scope c) (t : Tid) (call : Call) :
  callable_factories s -> callable_factories (perform t call s).
Proof.
  intros Hinv. destruct call as [k v | k | k | k f | k | k | k | |];
    unfold perform, callable_factories.
  - by rewrite self_bind_factories.
  - by rewrite self_unbind_factories.
  - done.
  - destruct (callable f) eqn:Hf.
    + destruct (self_bind_factory_effect s t k f Hf) as (s' & E & Hfs & _).
      rewrite E. simpl. rewrite Hfs. intros j g.
      destruct (decide (k = j)) as [-> | Hne].
      * rewrite lookup_insert_eq. by intros [= <-].
      * rewrite lookup_insert_ne by done. apply Hinv.
    + unfold Self.bind_factory, AbstractScope.bind_factory. step_method.
      by rewrite Hf.
  - destruct (self_unbind_factory_effect s t k) as (s' & E & Hfs & _).
    rewrite E. simpl. rewrite Hfs. intros j g.
    rewrite lookup_delete_Some. intros [_ Hj]. by apply (Hinv j).
  - done.
  - by rewrite self_get_factories.
  - destruct c; [done | done |].
    destruct (start_effect s t) as (s1 & E & _ & _ & Hfs & _).
    rewrite E. simpl. by rewrite Hfs.
  - destruct c; [done | done |].
    destruct (end_effect s t) as (s1 & E & _ & _ & Hfs & _).
    rewrite E. simpl. by rewrite Hfs.
Qed.

Lemma history_callable_factories {c} (calls : list (Tid * Call))
    (s : Scope c) :
  callable_factories s -> callable_factories (history calls s).
Proof.
  revert s. induction calls as [| [t call] rest IH]; intros s Hinv; [done |].
  simpl. by apply IH, perform_callable_factories.
Qed.

(** X14: in every scope reached by calls of its methods from one with no
    factories, as the constructors leave it, every registered factory
    passes [callable]; so [get] never fails for calling an object that is
    not callable: when it raises, either the guard refused the call or
    the exception is the one the call of the registered factory raised. *)
Theorem registered_factories_stay_callable
    {c} (s : Scope c) (calls : list (Tid * Call)) :
  _factories s = ∅ ->
  callable_factories (history calls s)
  /\ forall t k e,
       fst (Self.get t k (history calls s)) = Err e ->
       (e = NoRequestError /\ accepts (history calls s) t = false)
       \/ exists body,
            _factories (history calls s) !! k = Some (PyCallable body)
            /\ body (length (invoked (history calls s))) = Throws e.
Proof.
  intros Hempty.
  assert (Hinv : callable_factories (history calls s)).
  { apply history_callable_factories. intros k f.
    by rewrite Hempty, lookup_empty. }
  split; [done |]. intros t k e.
  destruct (self_get_cases (history calls s) t k)
    as [(Hs & E) | [(Hs & w & _ & E) | [(Hs & _ & _ & E) |
        [(Hs & _ & f & Hf & Hcall & E) |
         [(Hs & _ & body & e' & s' & Hf & Hv & E & _) |
          (Hs & _ & body & w & s' & _ & _ & E & _)]]]]];
    rewrite E; simpl; try done.
  - intros [= <-]. by left.
  - rewrite (Hinv k f Hf) in Hcall. done.
  - intros [= <-]. right. by exists body.
Qed.

Lemma registered_factories_stay_callable_witness :
  callable_factories
    (history [(0, Call_bind_factory "list" list_factory);
              (1, Call_bind_factory "int" (PyInt 3));
              (0, Call_get "list"); (1, Call_unbind_factory "list")]
       ThreadScope.__init__)
  /\ forall t k e,
       fst (Self.get t k
              (history [(0, Call_bind_factory "list" list_factory);
                        (1, Call_bind_factory "int" (PyInt 3));
                        (0, Call_get "list");
                        (1, Call_unbind_factory "list")]
                 ThreadScope.__init__)) = Err e ->
       (e = NoRequestError
        /\ accepts
             (history [(0, Call_bind_factory "list" list_factory);
                       (1, Call_bind_factory "int" (PyInt 3));
                       (0, Call_get "list");
                       (1, Call_unbind_factory "list")]
                ThreadScope.__init__) t = false)
       \/ exists body,
            _factories
              (history [(0, Call_bind_factory "list" list_factory);
                        (1, Call_bind_factory "int" (PyInt 3));
                        (0, Call_get "list");
                        (1, Call_unbind_factory "list")]
                 ThreadScope.__init__) !! k = Some (PyCallable body)
            /\ body (length (invoked
                       (history [(0, Call_bind_factory "list" list_factory);
                                 (1, Call_bind_factory "int" (PyInt 3));
                                 (0, Call_get "list");
                                 (1, Call_unbind_factory "list")]
                          ThreadScope.__init__))) = Throws e.
Proof.
  apply (registered_factories_stay_callable ThreadScope.__init__).
  reflexivity.
Defined.

(** * The request as a context manager *)

(** X15: [__enter__] returns with the request started and the thread's
    bindings as they were; [__exit__] returns [False] on every scope, so
    an exception of the body is not suppressed, ends the request and
    empties the thread's bindings while the factories stay; in the block
    entered next nothing is bound. *)
Theorem request_context_manager (s : Scope RequestScope) (t : Tid) :
  (exists s1,
     RequestScope.__enter__ t s = (Ok (), s1)
     /\ accepts s1 t = true
     /\ bindings_of s1 t = bindings_of s t)
  /\ exists s2 s3,
       RequestScope.__exit__ t s = (Ok false, s2)
       /\ accepts s2 t = false
       /\ bindings_of s2 t = ∅
       /\ _factories s2 = _factories s
       /\ RequestScope.__enter__ t s2 = (Ok (), s3)
       /\ forall k, Self.is_bound t k s3 = (Ok false, s3).
Proof.
  split.
  - destruct (start_effect s t) as (s1 & E & Ha & Hb & _).
    by exists s1.
  - destruct (end_effect s t) as (s2 & E2 & Ha2 & Hb2 & Hf2 & _).
    destruct (start_effect s2 t) as (s3 & E3 & _ & Hb3 & _).
    exists s2, s3. repeat split; try done.
    + unfold RequestScope.__exit__. unfold mbind, Method_bind.
      by rewrite E2.
    + intros k. rewrite is_bound_reads, Hb3, Hb2, lookup_empty.
      rewrite bool_decide_eq_false_2; [done |]. by intros [? ?].
Qed.

(** * The thread-local store *)

Section ThreadLocalStoreFacts.
Context {X : Type} (init : Local X).
Implicit Types (b : gmap Tid (Local X)) (t : Tid) (k : Key) (v : Obj).

(** X16: in a thread-local store an item set is the item read back by
    the same thread, by [__getitem__], [get] and [__contains__]; the
    thread's other keys and attributes and every other thread's data are
    as before, and the length grows by one exactly when the key is new. *)
Theorem thread_local_setitem_getitem b t t' k j v :
  ThreadLocalBindings.__getitem__ init
    (ThreadLocalBindings.__setitem__ init b t k v) t k = Ok v
  /\ ThreadLocalBindings.get init
       (ThreadLocalBindings.__setitem__ init b t k v) t k = v
  /\ ThreadLocalBindings.__contains__ init
       (ThreadLocalBindings.__setitem__ init b t k v) t k = true
  /\ (j <> k ->
      ThreadLocalBindings.__getitem__ init
        (ThreadLocalBindings.__setitem__ init b t k v) t j
      = ThreadLocalBindings.__getitem__ init b t j)
  /\ (t' <> t ->
      ThreadLocalBindings.this init
        (ThreadLocalBindings.__setitem__ init b t k v) t'
      = ThreadLocalBindings.this init b t')
  /\ attrs (ThreadLocalBindings.this init
              (ThreadLocalBindings.__setitem__ init b t k v) t)
     = attrs (ThreadLocalBindings.this init b t)
  /\ ThreadLocalBindings.__len__ init
       (ThreadLocalBindings.__setitem__ init b t k v) t
     = if ThreadLocalBindings.__contains__ init b t k
       then ThreadLocalBindings.__len__ init b t
       else S (ThreadLocalBindings.__len__ init b t).
Proof.
  unfold ThreadLocalBindings.__getitem__, ThreadLocalBindings.get,
    ThreadLocalBindings.__contains__, ThreadLocalBindings.__len__,
    ThreadLocalBindings.__setitem__.
  rewrite !this_set_data. simpl. rewrite lookup_insert_eq.
  split; [done |]. split; [done |].
  split; [by apply bool_decide_eq_true_2 |].
  split; [intros Hj; by rewrite lookup_insert_ne |].
  split; [intros Ht; by apply this_set_data_other |].
  split; [done |].
  destruct (_data (ThreadLocalBindings.this init b t) !! k) as [w |] eqn:Hk.
  - rewrite bool_decide_eq_true_2 by done.
    by apply map_size_insert_Some.
  - rewrite bool_decide_eq_false_2 by (by intros [? ?]).
    by apply map_size_insert_None.
Qed.

(** X18: [__delitem__] of a key the thread has set returns a store in
    which that key is gone for the thread, its length is one less and
    its other keys are as before; [clear] leaves the thread with no item
    at all.  Neither touches the thread's other attributes or another
    thread's data. *)
Theorem thread_local_delitem_clear b t t' k j v :
  (_data (ThreadLocalBindings.this init b t) !! k = Some v ->
   exists b',
     ThreadLocalBindings.__delitem__ init b t k = Ok b'
     /\ ThreadLocalBindings.__contains__ init b' t k = false
     /\ S (ThreadLocalBindings.__len__ init b' t)
        = ThreadLocalBindings.__len__ init b t
     /\ (j <> k ->
         ThreadLocalBindings.__getitem__ init b' t j
         = ThreadLocalBindings.__getitem__ init b t j)
     /\ attrs (ThreadLocalBindings.this init b' t)
        = attrs (ThreadLocalBindings.this init b t)
     /\ (t' <> t ->
         ThreadLocalBindings.this init b' t'
         = ThreadLocalBindings.this init b t'))
  /\ ThreadLocalBindings.__len__ init (ThreadLocalBindings.clear init b t) t
     = 0
  /\ ThreadLocalBindings.__contains__ init
       (ThreadLocalBindings.clear init b t) t j = false
  /\ attrs (ThreadLocalBindings.this init
              (ThreadLocalBindings.clear init b t) t)
     = attrs (ThreadLocalBindings.this init b t)
  /\ (t' <> t ->
      ThreadLocalBindings.this init (ThreadLocalBindings.clear init b t) t'
      = ThreadLocalBindings.this init b t').
Proof.
  split; [| split; [| split; [| split]]].
  - intros Hk. unfold ThreadLocalBindings.__delitem__. rewrite Hk.
    eexists. split; [done |].
    unfold ThreadLocalBindings.__contains__, ThreadLocalBindings.__len__,
      ThreadLocalBindings.__getitem__.
    rewrite !this_set_data. simpl.
    split; [| split; [| split; [| split; [done |]]]].
    + rewrite lookup_delete_eq. apply bool_decide_eq_false_2.
      by intros [? ?].
    + rewrite map_size_delete_Some by done.
      assert (size (_data (ThreadLocalBindings.this init b t)) <> 0).
      { intros H0%map_size_empty_inv. by rewrite H0, lookup_empty in Hk. }
      lia.
    + intros Hj. by rewrite lookup_delete_ne.
    + intros Ht. by apply this_set_data_other.
  - unfold ThreadLocalBindings.__len__, ThreadLocalBindings.clear.
    by rewrite this_set_data.
  - unfold ThreadLocalBindings.__contains__, ThreadLocalBindings.clear.
    rewrite this_set_data. simpl. rewrite lookup_empty.
    apply bool_decide_eq_false_2. by intros [? ?].
  - unfold ThreadLocalBindings.clear. by rewrite this_set_data.
  - intros Ht. unfold ThreadLocalBindings.clear.
    by apply this_set_data_other.
Qed.
End ThreadLocalStoreFacts.

Lemma thread_local_setitem_getitem_witness :
  ThreadLocalBindings.__getitem__ RequestLocalBindings.__init__
    (ThreadLocalBindings.__setitem__ RequestLocalBindings.__init__
       (_bindings busy_request_scope) 0 "int" (PyInt 1)) 0 "int"
  = Ok (PyInt 1)
  /\ ThreadLocalBindings.__getitem__ RequestLocalBindings.__init__
       (ThreadLocalBindings.__setitem__ RequestLocalBindings.__init__
          (_bindings busy_request_scope) 0 "int" (PyInt 1)) 0 "str"
     = ThreadLocalBindings.__getitem__ RequestLocalBindings.__init__
         (_bindings busy_request_scope) 0 "str"
  /\ ThreadLocalBindings.this RequestLocalBindings.__init__
       (ThreadLocalBindings.__setitem__ RequestLocalBindings.__init__
          (_bindings busy_request_scope) 0 "int" (PyInt 1)) 1
     = ThreadLocalBindings.this RequestLocalBindings.__init__
         (_bindings busy_request_scope) 1.
Proof.
  destruct (thread_local_setitem_getitem RequestLocalBindings.__init__
              (_bindings busy_request_scope) 0 1 "int" "str" (PyInt 1))
    as (Hget & _ & _ & Hkey & Hthread & _).
  split; [exact Hget | split].
  - apply Hkey. discriminate.
  - apply Hthread. discriminate.
Defined.

Lemma thread_local_delitem_clear_witness :
  exists b',
    ThreadLocalBindings.__delitem__ RequestLocalBindings.__init__
      (_bindings busy_request_scope) 0 "str" = Ok b'
    /\ ThreadLocalBindings.__contains__ RequestLocalBindings.__init__
         b' 0 "str" = false
    /\ S (ThreadLocalBindings.__len__ RequestLocalBindings.__init__ b' 0)
       = ThreadLocalBindings.__len__ RequestLocalBindings.__init__
           (_bindings busy_request_scope) 0.
Proof.
  destruct (thread_local_delitem_clear RequestLocalBindings.__init__
              (_bindings busy_request_scope) 0 1 "str" "int" (PyStr "x"))
    as (Hdel & _).
  destruct (Hdel eq_refl) as (b' & E & Hc & Hlen & _).
  exists b'. repeat split; assumption.
Defined.

(** * More on requests and bindings *)

Lemma start_request_twice (b : gmap Tid (Local bool)) (t : Tid) :
  RequestLocalBindings.start_request
    (RequestLocalBindings.start_request b t) t
  = RequestLocalBindings.start_request b t.
Proof.
  unfold RequestLocalBindings.start_request.
  unfold ThreadLocalBindings.set_attrs at 1. rewrite this_set_attrs. simpl.
  unfold ThreadLocalBindings.set_attrs. by rewrite insert_insert_eq.
Qed.

Lemma end_request_insert (b : gmap Tid (Local bool)) (t : Tid) :
  RequestLocalBindings.end_request b t = <[t := MkLocal ∅ false]> b.
Proof.
  unfold RequestLocalBindings.end_request, ThreadLocalBindings.clear,
    ThreadLocalBindings.set_attrs.
  rewrite this_set_data. simpl.
  unfold ThreadLocalBindings.set_data. by rewrite insert_insert_eq.
Qed.

(** X19: [start()] and [end()] are idempotent: a second [start()] right
    after the first, or a second [end()] right after the first, returns
    and leaves the whole scope as the first call left it. *)
Theorem start_end_idempotent (s : Scope RequestScope) (t : Tid) :
  RequestScope.start t (snd (RequestScope.start t s))
  = (Ok (), snd (RequestScope.start t s))
  /\ RequestScope.end_ t (snd (RequestScope.end_ t s))
     = (Ok (), snd (RequestScope.end_ t s)).
Proof.
  unfold RequestScope.start, RequestScope.end_. step_method.
  rewrite start_request_twice, !end_request_insert.
  by rewrite insert_insert_eq.
Qed.

(** X20: a completed [bind(k, v)] changes the calling thread's bindings
    at [k] only: every other key is bound or not, and to the same object,
    as before; and for a [k] that was not bound, [unbind(k)] right after
    it brings the thread's bindings back to what they were. *)
Theorem bind_touches_only_its_key
    {c} (s : Scope c) (t : Tid) (k : Key) (v : Obj) :
  accepts s t = true ->
  exists s1 s2,
    Self.bind t k v s = (Ok (), s1)
    /\ (forall j, j <> k ->
          bindings_of s1 t !! j = bindings_of s t !! j
          /\ fst (Self.is_bound t j s1) = fst (Self.is_bound t j s))
    /\ Self.unbind t k s1 = (Ok (), s2)
    /\ (bindings_of s t !! k = None -> bindings_of s2 t = bindings_of s t)
    /\ logged s2 = logged s1 ++ [Unbound k].
Proof.
  intros Hs.
  destruct (self_bind_effect s t k v Hs) as (s1 & E1 & Hb1 & Ha1 & _).
  destruct (self_unbind_effect s1 t k Ha1)
    as (s2 & E2 & Hb2 & _ & _ & _ & Hl2 & _).
  assert (Hk1 : bindings_of s1 t !! k = Some v)
    by (rewrite Hb1; apply lookup_insert_eq).
  exists s1, s2. split; [done |]. split; [| split; [done | split]].
  - intros j Hj.
    assert (Hsame : bindings_of s1 t !! j = bindings_of s t !! j)
      by (rewrite Hb1; by apply lookup_insert_ne).
    split; [done |]. rewrite !is_bound_reads. simpl. by rewrite Hsame.
  - intros Hk. rewrite Hb2, Hb1. by apply delete_insert_id.
  - by rewrite Hl2, (contains_Some _ _ _ _ Hk1).
Qed.

Lemma bind_touches_only_its_key_witness :
  exists s1 s2,
    Self.bind 0 "int" (PyInt 5) busy_request_scope = (Ok (), s1)
    /\ bindings_of s1 0 !! "str" = bindings_of busy_request_scope 0 !! "str"
    /\ Self.unbind 0 "int" s1 = (Ok (), s2)
    /\ bindings_of s2 0 = bindings_of busy_request_scope 0.
Proof.
  destruct (bind_touches_only_its_key busy_request_scope 0 "int" (PyInt 5)
              eq_refl) as (s1 & s2 & E1 & Hother & E2 & Hback & _).
  exists s1, s2. repeat split; [exact E1 | | exact E2 |].
  - apply Hother. discriminate.
  - apply Hback. reflexivity.
Defined.

(** * Memoization *)

(** A call that does not rebind [k] leaves the caller's binding of [k]
    and its open guard in place. *)
Lemma perform_own_keeps_binding
    {c} (s : Scope c) (t : Tid) (k : Key) (v : Obj) (call : Call) :
  accepts s t = true ->
  bindings_of s t !! k = Some v ->
  rebinds c k call = false ->
  accepts (perform t call s) t = true
  /\ bindings_of (perform t call s) t !! k = Some v.
Proof.
  intros Hs Hk Hcall.
  destruct call as [j w | j | j | j f | j | j | j | |];
    unfold perform; simpl in Hcall.
  - apply bool_decide_eq_false_1 in Hcall.
    destruct (self_bind_effect s t j w Hs) as (s' & E & Hb & Ha & _).
    rewrite E. simpl. split; [done |].
    rewrite Hb. by rewrite lookup_insert_ne.
  - apply bool_decide_eq_false_1 in Hcall.
    destruct (self_unbind_effect s t j Hs) as (s' & E & Hb & Ha & _).
    rewrite E. simpl. split; [done |].
    rewrite Hb. by rewrite lookup_delete_ne.
  - done.
  - unfold accepts, bindings_of. by rewrite self_bind_factory_bindings.
  - unfold accepts, bindings_of. by rewrite self_unbind_factory_bindings.
  - done.
  - destruct (self_get_cases s t j)
      as [(Hs' & E) | [(_ & w & _ & E) | [(_ & _ & _ & E) |
          [(_ & _ & f & _ & _ & E) |
           [(_ & _ & body & e & s' & _ & _ & E & Hb & _) |
            (_ & Hj & body & w & s' & _ & _ & E & Hb & Ha & _)]]]]];
      rewrite E; simpl; try done.
    + unfold accepts, bindings_of. by rewrite Hb.
    + split; [done |]. rewrite Hb.
      rewrite lookup_insert_ne; [done |]. intros ->. congruence.
  - destruct c; [done | done |].
    destruct (start_effect s t) as (s1 & E & Ha & Hb & _).
    rewrite E. simpl snd. split; [done |]. by rewrite Hb.
  - by destruct c.
Qed.

Lemma perform_keeps_binding
    {c} (s : Scope c) (t : Tid) (k : Key) (v : Obj) (tc : Tid * Call) :
  accepts s t = true ->
  bindings_of s t !! k = Some v ->
  disturbs c t k tc = false ->
  accepts (perform (fst tc) (snd tc) s) t = true
  /\ bindings_of (perform (fst tc) (snd tc) s) t !! k = Some v.
Proof.
  destruct tc as [t0 call]. simpl. intros Hs Hk Hd.
  unfold disturbs in Hd. simpl in Hd.
  apply andb_false_iff in Hd as [Hother | Hcall].
  - apply orb_false_iff in Hother as [Hlocal Ht0].
    apply negb_false_iff in Hlocal. apply bool_decide_eq_false_1 in Ht0.
    assert (Hc : c <> ApplicationScope) by (by intros ->).
    destruct (perform_other s t0 call Hc t (not_eq_sym Ht0)) as [Hb Ha].
    split; congruence.
  - destruct (decide (t0 = t)) as [-> | Hne];
      [by apply perform_own_keeps_binding |].
    destruct c.
    + by apply (perform_own_keeps_binding s t0 k v call).
    + assert (Hc : ThreadScope <> ApplicationScope) by done.
      destruct (perform_other s t0 call Hc t (not_eq_sym Hne)) as [Hb Ha].
      split; congruence.
    + assert (Hc : RequestScope <> ApplicationScope) by done.
      destruct (perform_other s t0 call Hc t (not_eq_sym Hne)) as [Hb Ha].
      split; congruence.
Qed.

Lemma history_keeps_binding
    {c} (calls : list (Tid * Call)) (s : Scope c) (t : Tid) (k : Key)
    (v : Obj) :
  accepts s t = true ->
  bindings_of s t !! k = Some v ->
  Forall (fun tc => disturbs c t k tc = false) calls ->
  accepts (history calls s) t = true
  /\ bindings_of (history calls s) t !! k = Some v.
Proof.
  intros Hs Hk Hcalls. revert s Hs Hk.
  induction Hcalls as [| [t0 call] rest Hd _ IH]; intros s Hs Hk; [done |].
  simpl. destruct (perform_keeps_binding s t k v (t0, call) Hs Hk Hd)
    as [Hs' Hk'].
  by apply IH.
Qed.

(** C3, as the code has it: on a scope that lets the calling thread
    through (any [ApplicationScope] or [ThreadScope], a [RequestScope]
    with a started request), with a factory bound for [k] whose call
    returns and no direct binding for [k], the first [get(k)] invokes that
    factory once, binds what it returned for [k] and returns it.  Every
    later [get(k)] of that thread returns the same object and leaves the
    scope as it finds it, invoking nothing, whatever calls any threads
    made in between, as long as none of them was a [bind(k, _)], an
    [unbind(k)] or an [end()] made by that thread, or by any thread where
    all threads share the bindings. *)
Theorem factory_memoization
    {c} (s : Scope c) (t : Tid) (k : Key) (body : nat -> Outcome) (v : Obj) :
  accepts s t = true ->
  bindings_of s t !! k = None ->
  _factories s !! k = Some (PyCallable body) ->
  body (length (invoked s)) = Returns v ->
  exists s1,
    Self.get t k s = (Ok v, s1)
    /\ invoked s1 = invoked s ++ [PyCallable body]
    /\ bindings_of s1 t = <[k := v]> (bindings_of s t)
    /\ Self.is_bound t k s1 = (Ok true, s1)
    /\ forall calls,
         Forall (fun tc => disturbs c t k tc = false) calls ->
         Self.get t k (history calls s1) = (Ok v, history calls s1).
Proof.
  intros Hs Hk Hf Hv.
  destruct (self_get_factory s t k body v Hs Hk Hf Hv)
    as (s1 & E & Hb & Ha & _ & Hi & _).
  assert (Hk1 : bindings_of s1 t !! k = Some v)
    by (rewrite Hb; apply lookup_insert_eq).
  exists s1. repeat split; try done.
  - rewrite is_bound_reads, Hk1. by rewrite bool_decide_eq_true_2.
  - intros calls Hcalls.
    destruct (history_keeps_binding calls s1 t k v Ha Hk1 Hcalls)
      as [Ha' Hk'].
    by apply self_get_bound.
Qed.

Lemma factory_memoization_witness :
  exists s1,
    Self.get 0 "list" busy_request_scope = (Ok (PyInstance "list" 0), s1)
    /\ invoked s1 = invoked busy_request_scope ++ [list_factory]
    /\ Self.is_bound 0 "list" s1 = (Ok true, s1)
    /\ Self.get 0 "list"
         (history [(0, Call_get "list"); (0, Call_bind "int" (PyInt 1));
                   (1, Call_start); (1, Call_bind "list" PyNone);
                   (1, Call_end); (0, Call_unbind "str");
                   (0, Call_bind_factory "list" flaky_factory);
                   (0, Call_get "list")] s1)
       = (Ok (PyInstance "list" 0),
          history [(0, Call_get "list"); (0, Call_bind "int" (PyInt 1));
                   (1, Call_start); (1, Call_bind "list" PyNone);
                   (1, Call_end); (0, Call_unbind "str");
                   (0, Call_bind_factory "list" flaky_factory);
                   (0, Call_get "list")] s1).
Proof.
  destruct (factory_memoization busy_request_scope 0 "list"
              (fun n => Returns (PyInstance "list" n)) (PyInstance "list" 0)
              eq_refl eq_refl eq_refl eq_refl)
    as (s1 & E & Hi & _ & Hbound & Hlater).
  exists s1. repeat split; [exact E | exact Hi | exact Hbound |].
  apply Hlater. repeat constructor.
Defined.

(** C3, as stated, fails in two ways.  On a [RequestScope] with a
    factory bound for [list], no binding for it and no request started,
    the first [get(list)] raises [NoRequestError] and the factory is not
    invoked.  And without any [unbind] in between a later [get] need not
    return the memoized object: on a [ThreadScope], after [get(list)] has
    memoized the factory's first list, [bind(list, 5)] makes the next
    [get(list)] return [5]; on a [RequestScope], [end()] and [start()]
    make it invoke the factory again and return a second list. *)
Lemma factory_memoization_counterexample :
  (bindings_of idle_request_scope 0 !! "list" = None
   /\ _factories idle_request_scope !! "list" = Some list_factory
   /\ Self.get 0 "list" idle_request_scope
      = (Err NoRequestError, idle_request_scope)
   /\ invoked (snd (Self.get 0 "list" idle_request_scope)) = [])
  /\ (fst (Self.get 0 "list" thread_scope_with_factory)
      = Ok (PyInstance "list" 0)
      /\ fst (Self.get 0 "list"
                (history [(0, Call_bind "list" (PyInt 5))]
                   (snd (Self.get 0 "list" thread_scope_with_factory))))
         = Ok (PyInt 5))
  /\ (fst (Self.get 0 "list" busy_request_scope) = Ok (PyInstance "list" 0)
      /\ fst (Self.get 0 "list"
                (history [(0, Call_end); (0, Call_start)]
                   (snd (Self.get 0 "list" busy_request_scope))))
         = Ok (PyInstance "list" 1)
      /\ invoked
           (snd (Self.get 0 "list"
                   (history [(0, Call_end); (0, Call_start)]
                      (snd (Self.get 0 "list" busy_request_scope)))))
         = [list_factory; list_factory]).
Proof. repeat split; reflexivity. Qed.
